(** * Diagnostic probes of [src/services/gemini.ts]

    A shallow embedding of the seven probes of [runGeminiTests] and of
    [getAIClient], together with the fragment of JavaScript they rely on:
    dynamically typed values, truthiness, property reads that throw on
    [undefined] and [null], string conversion, exceptions with [try]/[catch],
    and the observable effects of a probe (the client constructed, the
    requests sent, the console warnings).

    The remote client is a collaborator outside the repository: it is a
    parameter of every probe (a _stub_), and the theorems quantify over it. *)

From Stdlib Require Import String Ascii List ZArith Bool Lia DecimalString.
From ExtLib Require Import Structures.Monad Structures.MonadExc.
Import ListNotations.
Import MonadNotation.
Local Open Scope string_scope.
Local Open Scope monad_scope.

(* ===================================================================== *)
(** ** JavaScript values *)
(* ===================================================================== *)

(** The values a stub can return or throw, as plain data.  Numbers are the
    integers of magnitude below 2^53, which JavaScript represents and prints
    exactly (the only numbers the probes produce are counts and lengths);
    fractions, NaN, infinities and larger magnitudes, which JavaScript
    rounds to a double and prints in shortest form, are left out: [JNum z]
    with a larger [z] stands for no JavaScript number, and a statement that
    depends on the digits of a number asks for [prints_exactly].  Strings
    are byte strings holding UTF-8 text, so a
    source literal is its UTF-8 text.  Objects are plain objects: property
    lists in insertion order with distinct keys.  The one function value is
    the built-in [Array.prototype.values], because that is what reading
    [.values] off an array yields.  Accessors, proxies, symbols and
    functions of the stub's own are outside this universe. *)
#[local] Set Warnings "-register-all".
Inductive JsVal : Type :=
| JUndefined
| JNull
| JBool (b : bool)
| JNum (z : Z)
| JStr (s : string)
| JArr (elems : list JsVal)
| JObj (props : list (string * JsVal))
| JArrayValues.

(** [!!v]: [undefined], [null], [false], [0] and the empty string are falsy. *)
Definition truthy (v : JsVal) : bool :=
  match v with
  | JUndefined | JNull => false
  | JBool b => b
  | JNum z => negb (Z.eqb z 0)
  | JStr s => negb (String.eqb s "")
  | JArr _ | JObj _ | JArrayValues => true
  end.

(** [a || b] returns one of its operands. *)
Definition js_or (a b : JsVal) : JsVal := if truthy a then a else b.

Definition nullish (v : JsVal) : bool :=
  match v with
  | JUndefined | JNull => true
  | _ => false
  end.

Fixpoint lookup (k : string) (props : list (string * JsVal)) : JsVal :=
  match props with
  | [] => JUndefined
  | (k', v) :: rest => if String.eqb k k' then v else lookup k rest
  end.

Definition string_of_Z (z : Z) : string := NilZero.string_of_int (Z.to_int z).
Definition string_of_nat (n : nat) : string := string_of_Z (Z.of_nat n).

Definition has_own (k : string) (props : list (string * JsVal)) : bool :=
  existsb (fun kv => String.eqb k (fst kv)) props.

(** [Array.prototype.join] over converted elements; the first element that
    has no conversion makes the whole join fail. *)
Fixpoint join (sep : string) (l : list (option string)) : option string :=
  match l with
  | [] => Some ""
  | [o] => o
  | o :: rest =>
      match o, join sep rest with
      | Some s, Some r => Some (s ++ sep ++ r)
      | _, _ => None
      end
  end.

(** The string a value converts to, as [+=] on a string and a template
    literal need it; [None] where the conversion throws a [TypeError].  A
    plain object converts through the inherited [toString]; an own
    [toString] property shadows it, and no value of this universe put there
    returns a primitive, so the conversion fails.  An array converts by
    joining its elements, [undefined] and [null] counting as empty.  A
    number converts to its decimal digits, which is what JavaScript prints
    for an integer of magnitude below 2^53; whether a conversion exists does
    not depend on the number. *)
Fixpoint to_string (v : JsVal) : option string :=
  match v with
  | JUndefined => Some "undefined"
  | JNull => Some "null"
  | JBool true => Some "true"
  | JBool false => Some "false"
  | JNum z => Some (string_of_Z z)
  | JStr s => Some s
  | JArr elems =>
      join "," (map (fun e => if nullish e then Some "" else to_string e)
                    elems)
  | JObj props =>
      if has_own "toString" props then None else Some "[object Object]"
  | JArrayValues => Some "function values() { [native code] }"
  end.

(** The length of a string in UTF-16 code units, from its UTF-8 bytes: one
    per leading byte, two for the leading byte of a four-byte sequence, none
    for a continuation byte. *)
Fixpoint utf16_length (s : string) : nat :=
  match s with
  | EmptyString => 0
  | String c rest =>
      let n := nat_of_ascii c in
      (if (n <? 128)%nat then 1
       else if (n <? 192)%nat then 0
       else if (n <? 240)%nat then 1
       else 2) + utf16_length rest
  end.

(** What [v.k] evaluates to on a value other than [undefined] and [null],
    for the property names the probes read: [text], [message], [embedding],
    [values], [totalTokens], [length], and [toLowerCase] on a value that is
    not a string.  Of these the prototypes supply [length] (arrays, strings,
    functions) and [values] (arrays). *)
Definition property (v : JsVal) (k : string) : JsVal :=
  match v with
  | JObj props => lookup k props
  | JArr elems =>
      if String.eqb k "length" then JNum (Z.of_nat (List.length elems))
      else if String.eqb k "values" then JArrayValues
      else JUndefined
  | JStr s =>
      if String.eqb k "length" then JNum (Z.of_nat (utf16_length s))
      else JUndefined
  | JArrayValues => if String.eqb k "length" then JNum 0 else JUndefined
  | JUndefined | JNull | JBool _ | JNum _ => JUndefined
  end.

(** An [Error] object, as data: [new Error(msg)]. *)
Definition new_Error (msg : string) : JsVal :=
  JObj [("name", JStr "Error"); ("message", JStr msg)].

(** The [TypeError] the runtime throws; the wording is the engine's. *)
Definition new_TypeError (msg : string) : JsVal :=
  JObj [("name", JStr "TypeError"); ("message", JStr msg)].

(* ===================================================================== *)
(** ** Strings: [toLowerCase] and [includes] *)
(* ===================================================================== *)

Definition lower_ascii (c : ascii) : ascii :=
  let n := nat_of_ascii c in
  if (65 <=? n)%nat && (n <=? 90)%nat then ascii_of_nat (n + 32) else c.

(** [s.toLowerCase()] on the letters A-Z; bytes outside ASCII are kept.
    JavaScript also lowers letters outside ASCII; the only such mappings
    that yield an ASCII letter are U+212A to "k" and U+0130 to "i" followed
    by U+0307, and neither can complete the keyword "miau". *)
Fixpoint toLowerCase (s : string) : string :=
  match s with
  | EmptyString => EmptyString
  | String c rest => String (lower_ascii c) (toLowerCase rest)
  end.

(** [s.includes(t)]: [t] occurs in [s] as a contiguous substring. *)
Fixpoint includes (s t : string) : bool :=
  String.prefix t s ||
  match s with
  | EmptyString => false
  | String _ rest => includes rest t
  end.

(* ===================================================================== *)
(** ** Effects: a trace of observable events, and exceptions *)
(* ===================================================================== *)

Inductive Method : Type :=
| GenerateContent
| GenerateContentStream
| CountTokens
| EmbedContent.

Inductive Event : Type :=
| EvNewClient (apiKey : string)           (* new GoogleGenAI({ apiKey }) *)
| EvCall (m : Method) (request : JsVal)   (* ai.models.<m>(request) *)
| EvWarn (args : list JsVal).             (* console.warn(...args) *)

(** How an evaluation ends: with a value, or with a thrown value. *)
Inductive Completion (A : Type) : Type :=
| Normal (a : A)
| Throw (e : JsVal).
Arguments Normal {A} a.
Arguments Throw {A} e.

(** A computation: the events it emitted, in order, and its completion. *)
Definition Js (A : Type) : Type := (list Event * Completion A)%type.

Definition Js_ret {A} (a : A) : Js A := ([], Normal a).

Definition Js_bind {A B} (m : Js A) (f : A -> Js B) : Js B :=
  match m with
  | (t, Normal a) => let (t', c) := f a in ((t ++ t')%list, c)
  | (t, Throw e) => (t, Throw e)
  end.

Definition Js_throw {A} (e : JsVal) : Js A := ([], Throw e).

(** [try { m } catch (e) { h e }] *)
Definition try_catch {A} (m : Js A) (h : JsVal -> Js A) : Js A :=
  match m with
  | (t, Normal a) => (t, Normal a)
  | (t, Throw e) => let (t', c) := h e in ((t ++ t')%list, c)
  end.

#[global] Instance Monad_Js : Monad Js :=
  {| ret := @Js_ret; bind := @Js_bind |}.

#[global] Instance Exc_Js : MonadExc JsVal Js :=
  {| raise := @Js_throw; catch := @try_catch |}.

Definition emit (ev : Event) : Js unit := ([ev], Normal tt).

(** Running a completion obtained from the stub. *)
Definition lift {A} (c : Completion A) : Js A := ([], c).

(** [v.k]: reading a property of [undefined] or [null] throws. *)
Definition get (v : JsVal) (k : string) : Js JsVal :=
  match v with
  | JUndefined =>
      raise (new_TypeError
        ("Cannot read properties of undefined (reading '" ++ k ++ "')"))
  | JNull =>
      raise (new_TypeError
        ("Cannot read properties of null (reading '" ++ k ++ "')"))
  | _ => ret (property v k)
  end.

(** [String(v)] inside a computation. *)
Definition js_to_string (v : JsVal) : Js string :=
  match to_string v with
  | Some s => ret s
  | None => raise (new_TypeError "Cannot convert object to primitive value")
  end.

(** [a && b] where evaluating [b] may throw: [b] runs only if [a] is truthy. *)
Definition js_and_then (a : JsVal) (b : Js JsVal) : Js JsVal :=
  if truthy a then b else ret a.

(** [v.toLowerCase().includes(kw)]: only a string has the method
    [toLowerCase].  On another value the property is read; it is callable
    only if it is the built-in [values], whose result, an iterator, has no
    [includes]. *)
Definition call_toLowerCase_includes (v : JsVal) (kw : string) : Js bool :=
  match v with
  | JStr s => ret (includes (toLowerCase s) kw)
  | _ =>
      f <- get v "toLowerCase" ;;
      match f with
      | JArrayValues =>
          raise (new_TypeError
                   "text.toLowerCase(...).includes is not a function")
      | _ => raise (new_TypeError "text.toLowerCase is not a function")
      end
  end.

(* ===================================================================== *)
(** ** The collaborator: environment and client stub *)
(* ===================================================================== *)

(** What [ai.models.generateContentStream] resolves to: an async iterable
    delivering [chunks] in order and then either finishing or failing with a
    thrown value, or a value that cannot be iterated at all, for which the
    engine throws a TypeError worded after that value. *)
Inductive StreamResult : Type :=
| AsyncIterable (chunks : list JsVal) (failure : option JsVal)
| NotIterable (wording : string).

(** The client handle, [ai.models]: each method maps the request object to
    the completion of the awaited call. *)
Record Client : Type := {
  models_generateContent : JsVal -> Completion JsVal;
  models_generateContentStream : JsVal -> Completion StreamResult;
  models_countTokens : JsVal -> Completion JsVal;
  models_embedContent : JsVal -> Completion JsVal
}.

(** The ambient world of a probe: [process.env.API_KEY] and the constructor
    [new GoogleGenAI({ apiKey })], which may itself throw. *)
Record World : Type := {
  API_KEY : option string;
  GoogleGenAI : string -> Completion Client
}.

(** [await ai.models.generateContent(request)] and its siblings: the request
    is observed, then the stub decides the completion. *)
Definition await_generateContent (ai : Client) (request : JsVal) : Js JsVal :=
  emit (EvCall GenerateContent request) ;;
  lift (models_generateContent ai request).

Definition await_generateContentStream (ai : Client) (request : JsVal)
  : Js StreamResult :=
  emit (EvCall GenerateContentStream request) ;;
  lift (models_generateContentStream ai request).

Definition await_countTokens (ai : Client) (request : JsVal) : Js JsVal :=
  emit (EvCall CountTokens request) ;;
  lift (models_countTokens ai request).

Definition await_embedContent (ai : Client) (request : JsVal) : Js JsVal :=
  emit (EvCall EmbedContent request) ;;
  lift (models_embedContent ai request).

(** [for await (const chunk of stream) { st = body chunk st }] *)
Fixpoint for_await_chunks {S : Type} (chunks : list JsVal)
    (failure : option JsVal) (body : JsVal -> S -> Js S) (st : S) : Js S :=
  match chunks with
  | [] =>
      match failure with
      | None => ret st
      | Some e => raise e
      end
  | chunk :: rest =>
      st' <- body chunk st ;;
      for_await_chunks rest failure body st'
  end.

Definition for_await {S : Type} (stream : StreamResult)
    (body : JsVal -> S -> Js S) (st : S) : Js S :=
  match stream with
  | AsyncIterable chunks failure => for_await_chunks chunks failure body st
  | NotIterable wording => raise (new_TypeError wording)
  end.

(* ===================================================================== *)
(** ** The module under verification *)
(* ===================================================================== *)

Definition SAMPLE_IMAGE_BASE64 : string :=
  "iVBORw0KGgoAAAANSUhEUgAAAAEAAAABCAYAAAAfFcSJAAAADUlEQVR42mP8z8BQDwAEhQGAhKmMIQAAAABJRU5ErkJggg==".

(** [interface TestResult]; [message] is declared a string but is filled
    from [error.message], whatever that is, and [data] may be absent. *)
Record TestResult : Type := {
  success : bool;
  message : JsVal;
  data : option JsVal
}.

Definition MISSING_KEY : string :=
  "API Key no encontrada en process.env.API_KEY".

Definition getAIClient (w : World) : Js Client :=
  match API_KEY w with
  | None => raise (new_Error MISSING_KEY)
  | Some apiKey =>
      if String.eqb apiKey "" then raise (new_Error MISSING_KEY)
      else emit (EvNewClient apiKey) ;; lift (GoogleGenAI w apiKey)
  end.

(** A parameter with a default: [modelId: string = d]. *)
Definition default_param (arg : option string) (d : string) : string :=
  match arg with
  | Some s => s
  | None => d
  end.

Definition DEFAULT_MODEL : string := "gemini-2.5-flash".

(** [export const runGeminiTests = { ... }] *)
Module runGeminiTests.

(** *** 1. connect *)

Definition connect_try (w : World) (modelId : string) : Js TestResult :=
  ai <- getAIClient w ;;
  response <- await_generateContent ai
    (JObj [("model", JStr modelId); ("contents", JStr "ping")]) ;;
  cond <- js_and_then response (get response "text") ;;
  if truthy cond then
    reply <- get response "text" ;;
    ret {| success := true;
           message := JStr ("Conexión exitosa con " ++ modelId ++ ".");
           data := Some (JObj [("reply", reply)]) |}
  else
    raise (new_Error "Respuesta vacía del servidor.").

Definition connect_catch (error : JsVal) : Js TestResult :=
  msg <- get error "message" ;;
  ret {| success := false;
         message := js_or msg (JStr "Error de conexión");
         data := None |}.

Definition connect (w : World) (arg : option string) : Js TestResult :=
  let modelId := default_param arg DEFAULT_MODEL in
  catch (connect_try w modelId) connect_catch.

(** *** 2. generateText *)

Definition GENERATE_PROMPT : string :=
  "Responde con una sola palabra: 'Funciona'".

Definition generateText_try (w : World) (modelId : string) : Js TestResult :=
  ai <- getAIClient w ;;
  let prompt := GENERATE_PROMPT in
  response <- await_generateContent ai
    (JObj [("model", JStr modelId); ("contents", JStr prompt)]) ;;
  text <- get response "text" ;;
  ret {| success := true;
         message := JStr "Generación de texto correcta.";
         data := Some (JObj [("model", JStr modelId); ("prompt", JStr prompt);
                             ("output", text)]) |}.

(** The handler shared, word for word, by generateText, streamText,
    countTokens, systemInstruction and embedding. *)
Definition plain_catch (error : JsVal) : Js TestResult :=
  msg <- get error "message" ;;
  ret {| success := false; message := msg; data := None |}.

Definition generateText (w : World) (arg : option string) : Js TestResult :=
  let modelId := default_param arg DEFAULT_MODEL in
  catch (generateText_try w modelId) plain_catch.

(** *** 3. streamText *)

Definition STREAM_PROMPT : string :=
  "Escribe los números del 1 al 5 separados por comas.".

(** The loop body: [fullText += chunk.text; chunkCount++]. *)
Definition stream_step (chunk : JsVal) (st : string * nat)
  : Js (string * nat) :=
  text <- get chunk "text" ;;
  appended <- js_to_string text ;;
  ret (fst st ++ appended, S (snd st)).

Definition streamText_try (w : World) (modelId : string) : Js TestResult :=
  ai <- getAIClient w ;;
  let prompt := STREAM_PROMPT in
  responseStream <- await_generateContentStream ai
    (JObj [("model", JStr modelId); ("contents", JStr prompt)]) ;;
  st <- for_await responseStream stream_step ("", 0%nat) ;;
  let fullText := fst st in
  let chunkCount := snd st in
  ret {| success := true;
         message := JStr ("Streaming completado en "
                          ++ string_of_nat chunkCount ++ " fragmentos.");
         data := Some (JObj [("model", JStr modelId);
                             ("fullText", JStr fullText);
                             ("chunkCount", JNum (Z.of_nat chunkCount))]) |}.

Definition streamText (w : World) (arg : option string) : Js TestResult :=
  let modelId := default_param arg DEFAULT_MODEL in
  catch (streamText_try w modelId) plain_catch.

(** *** 4. countTokens *)

Definition COUNT_PROMPT : string := "Why is the sky blue?".

Definition countTokens_try (w : World) (modelId : string) : Js TestResult :=
  ai <- getAIClient w ;;
  let prompt := COUNT_PROMPT in
  response <- await_countTokens ai
    (JObj [("model", JStr modelId); ("contents", JStr prompt)]) ;;
  totalTokens <- get response "totalTokens" ;;
  ret {| success := true;
         message := JStr "Conteo de tokens exitoso.";
         data := Some (JObj [("model", JStr modelId); ("prompt", JStr prompt);
                             ("totalTokens", totalTokens)]) |}.

Definition countTokens (w : World) (arg : option string)
  : Js TestResult :=
  let modelId := default_param arg DEFAULT_MODEL in
  catch (countTokens_try w modelId) plain_catch.

(** *** 5. vision *)

Definition VISION_PROMPT : string :=
  "Describe esta imagen en 5 palabras o menos. (Es un pixel rojo)".

Definition vision_try (w : World) (modelId : string) : Js TestResult :=
  ai <- getAIClient w ;;
  response <- await_generateContent ai
    (JObj [("model", JStr modelId);
           ("contents", JObj [("parts", JArr [
              JObj [("inlineData", JObj [("mimeType", JStr "image/png");
                                         ("data", JStr SAMPLE_IMAGE_BASE64)])];
              JObj [("text", JStr VISION_PROMPT)]])])]) ;;
  output <- get response "text" ;;
  ret {| success := true;
         message := JStr "Análisis de visión completado.";
         data := Some (JObj [("model", JStr modelId); ("output", output)]) |}.

Definition vision_catch (modelId : string) (error : JsVal) : Js TestResult :=
  msg <- get error "message" ;;
  shown <- js_to_string msg ;;
  ret {| success := false;
         message := JStr ("Error en visión (" ++ modelId ++ "): " ++ shown);
         data := None |}.

Definition vision (w : World) (arg : option string) : Js TestResult :=
  let modelId := default_param arg DEFAULT_MODEL in
  catch (vision_try w modelId) (vision_catch modelId).

(** *** 6. systemInstruction *)

Definition SYSTEM_INSTRUCTION : string :=
  "Eres un gato. Responde solo con 'Miau'.".
Definition SYSTEM_PROMPT : string := "Hola, ¿cómo estás?".
Definition INSTRUCTION_OK : string := "Instrucción del sistema respetada.".
Definition INSTRUCTION_KO : string :=
  "El modelo no siguió la instrucción del sistema estrictamente.".

Definition systemInstruction_try (w : World) (modelId : string)
  : Js TestResult :=
  ai <- getAIClient w ;;
  let instruction := SYSTEM_INSTRUCTION in
  let prompt := SYSTEM_PROMPT in
  response <- await_generateContent ai
    (JObj [("model", JStr modelId); ("contents", JStr prompt);
           ("config", JObj [("systemInstruction", JStr instruction)])]) ;;
  rtext <- get response "text" ;;
  let text := js_or rtext (JStr "") in
  isCorrect <- call_toLowerCase_includes text "miau" ;;
  ret {| success := isCorrect;
         message := JStr (if isCorrect then INSTRUCTION_OK else INSTRUCTION_KO);
         data := Some (JObj [("model", JStr modelId);
                             ("instruction", JStr instruction);
                             ("prompt", JStr prompt); ("output", text)]) |}.

Definition systemInstruction (w : World) (arg : option string)
  : Js TestResult :=
  let modelId := default_param arg DEFAULT_MODEL in
  catch (systemInstruction_try w modelId) plain_catch.

(** *** 7. embedding *)

Definition EMBEDDING_TEXT : string := "Prueba de embedding".
Definition EMBEDDING_MODEL : string := "text-embedding-004".
Definition EMBEDDING_MISSING : string :=
  "La respuesta no contiene valores de embedding. Revisa la consola para más detalles.".

Definition embedding_try (w : World) : Js TestResult :=
  ai <- getAIClient w ;;
  let text := EMBEDDING_TEXT in
  let model := EMBEDDING_MODEL in
  response <- await_embedContent ai
    (JObj [("model", JStr model);
           ("contents", JArr [JObj [("parts",
                                     JArr [JObj [("text", JStr text)]])]])]) ;;
  c1 <- js_and_then response (get response "embedding") ;;
  c2 <- js_and_then c1 (e <- get response "embedding" ;; get e "values") ;;
  if truthy c2 then
    e <- get response "embedding" ;;
    values <- get e "values" ;;
    len <- get values "length" ;;
    ret {| success := true;
           message := JStr "Embedding generado correctamente.";
           data := Some (JObj [("model", JStr model);
                               ("vectorLength", len)]) |}
  else
    emit (EvWarn [JStr "Embedding response missing values:"; response]) ;;
    raise (new_Error EMBEDDING_MISSING).

(** [embedding] declares no parameter. *)
Definition embedding (w : World) : Js TestResult :=
  catch (embedding_try w) plain_catch.

End runGeminiTests.

(** *** The suite *)

Inductive Probe : Type :=
| PConnect
| PGenerateText
| PStreamText
| PCountTokens
| PVision
| PSystemInstruction
| PEmbedding.

(** [runGeminiTests[p](arg)]: a call through the exported object.  An
    argument handed to a function that declares none is dropped. *)
Definition invoke (p : Probe) (w : World) (arg : option string)
  : Js TestResult :=
  match p with
  | PConnect => runGeminiTests.connect w arg
  | PGenerateText => runGeminiTests.generateText w arg
  | PStreamText => runGeminiTests.streamText w arg
  | PCountTokens => runGeminiTests.countTokens w arg
  | PVision => runGeminiTests.vision w arg
  | PSystemInstruction => runGeminiTests.systemInstruction w arg
  | PEmbedding => runGeminiTests.embedding w
  end.

(** The [try] block and the [catch] handler of each probe. *)
Definition probe_try (p : Probe) (w : World) (modelId : string)
  : Js TestResult :=
  match p with
  | PConnect => runGeminiTests.connect_try w modelId
  | PGenerateText => runGeminiTests.generateText_try w modelId
  | PStreamText => runGeminiTests.streamText_try w modelId
  | PCountTokens => runGeminiTests.countTokens_try w modelId
  | PVision => runGeminiTests.vision_try w modelId
  | PSystemInstruction => runGeminiTests.systemInstruction_try w modelId
  | PEmbedding => runGeminiTests.embedding_try w
  end.

Definition probe_catch (p : Probe) (modelId : string) (error : JsVal)
  : Js TestResult :=
  match p with
  | PConnect => runGeminiTests.connect_catch error
  | PVision => runGeminiTests.vision_catch modelId error
  | _ => runGeminiTests.plain_catch error
  end.

(* ===================================================================== *)
(** ** Concrete stubs *)
(* ===================================================================== *)

(** A client whose every call completes with [response] (and whose stream
    is [stream]). *)
Definition stub_client (response : Completion JsVal)
    (stream : Completion StreamResult) : Client :=
  {| models_generateContent := fun _ => response;
     models_generateContentStream := fun _ => stream;
     models_countTokens := fun _ => response;
     models_embedContent := fun _ => response |}.

Definition stub_world (response : Completion JsVal)
    (stream : Completion StreamResult) : World :=
  {| API_KEY := Some "k";
     GoogleGenAI := fun _ => Normal (stub_client response stream) |}.

Definition returning (response : JsVal) : World :=
  stub_world (Normal response) (Normal (AsyncIterable [] None)).

Definition throwing (e : JsVal) : World :=
  stub_world (Throw e) (Throw e).

Definition streaming (chunks : list JsVal) (failure : option JsVal) : World :=
  stub_world (Normal JUndefined) (Normal (AsyncIterable chunks failure)).

Definition no_key : World :=
  {| API_KEY := None; GoogleGenAI := fun _ => Throw JUndefined |}.

Definition text_chunk (s : string) : JsVal := JObj [("text", JStr s)].

(* ===================================================================== *)
(** ** Vocabulary of the statements *)
(* ===================================================================== *)

(** The model identifier a probe puts in its request when called with
    [arg]: the caller's, else the default. *)
Definition model_of (arg : option string) : string :=
  default_param arg DEFAULT_MODEL.

(** The credential is absent: unset, or set to the empty string. *)
Definition key_absent (w : World) : Prop :=
  API_KEY w = None \/ API_KEY w = Some "".

(** The credential [k] is present and the constructor hands out the stub
    [ai] for it. *)
Definition has_client (w : World) (k : string) (ai : Client) : Prop :=
  API_KEY w = Some k /\ k <> "" /\ GoogleGenAI w k = Normal ai.

(** The request objects of the connect and generateText probes. *)
Definition connect_request (modelId : string) : JsVal :=
  JObj [("model", JStr modelId); ("contents", JStr "ping")].

Definition generateText_request (modelId : string) : JsVal :=
  JObj [("model", JStr modelId);
        ("contents", JStr runGeminiTests.GENERATE_PROMPT)].

Definition streamText_request (modelId : string) : JsVal :=
  JObj [("model", JStr modelId);
        ("contents", JStr runGeminiTests.STREAM_PROMPT)].

Definition systemInstruction_request (modelId : string) : JsVal :=
  JObj [("model", JStr modelId);
        ("contents", JStr runGeminiTests.SYSTEM_PROMPT);
        ("config",
         JObj [("systemInstruction",
                JStr runGeminiTests.SYSTEM_INSTRUCTION)])].

Definition embedding_request : JsVal :=
  JObj [("model", JStr runGeminiTests.EMBEDDING_MODEL);
        ("contents",
         JArr [JObj [("parts",
                      JArr [JObj [("text",
                                   JStr runGeminiTests.EMBEDDING_TEXT)]])]])].

(** The [text] a response carries. *)
Definition text_of (response : JsVal) : JsVal := property response "text".

(** [response.embedding.values], absent if either field is. *)
Definition embedding_values (response : JsVal) : JsVal :=
  property (property response "embedding") "values".

(** Two characters are the same letter up to case: equal, or one is the
    upper-case form (A-Z) of the other (a-z). *)
Definition upper_of (lo up : ascii) : Prop :=
  (65 <= nat_of_ascii up <= 90)%nat /\
  nat_of_ascii lo = (nat_of_ascii up + 32)%nat.

Definition same_letter (c d : ascii) : Prop :=
  c = d \/ upper_of c d \/ upper_of d c.

Inductive eq_ignoring_case : string -> string -> Prop :=
| eic_nil : eq_ignoring_case "" ""
| eic_cons c d s t :
    same_letter c d -> eq_ignoring_case s t ->
    eq_ignoring_case (String c s) (String d t).

(** [kw] occurs in [s] as a contiguous substring, letter case ignored. *)
Definition contains_ignoring_case (s kw : string) : Prop :=
  exists pre mid post,
    s = pre ++ mid ++ post /\ eq_ignoring_case mid kw.

(** Every value the stub throws satisfies [P]: from the constructor, from
    a call, or part-way through a stream. *)
Definition client_throws_only (P : JsVal -> Prop) (ai : Client) : Prop :=
  (forall req e, models_generateContent ai req = Throw e -> P e)
  /\ (forall req e, models_generateContentStream ai req = Throw e -> P e)
  /\ (forall req chunks e,
        models_generateContentStream ai req
          = Normal (AsyncIterable chunks (Some e)) -> P e)
  /\ (forall req e, models_countTokens ai req = Throw e -> P e)
  /\ (forall req e, models_embedContent ai req = Throw e -> P e).

Definition throws_only (P : JsVal -> Prop) (w : World) : Prop :=
  (forall k e, GoogleGenAI w k = Throw e -> P e)
  /\ (forall k ai, GoogleGenAI w k = Normal ai -> client_throws_only P ai).

(** A thrown value the handler of probe [p] can turn into a record: it is
    an actual value, neither [undefined] nor [null], so that its [message]
    can be read; and for the vision probe, which splices the message into a
    template literal, that message has a string conversion. *)
Definition catchable (p : Probe) (e : JsVal) : Prop :=
  nullish e = false
  /\ (p = PVision -> to_string (property e "message") <> None).

(** A computation that returns normally. *)
Definition returns {A} (m : Js A) : Prop :=
  exists t a, m = (t, Normal a).

(** A small program logic for [Js]: every event of [m] satisfies [QE], and
    [m] ends either normally with a value in [QN] or by throwing a value in
    [QT]. *)
Definition holds {A} (QE : Event -> Prop) (QN : A -> Prop)
    (QT : JsVal -> Prop) (m : Js A) : Prop :=
  Forall QE (fst m) /\
  match snd m with
  | Normal a => QN a
  | Throw e => QT e
  end.

Definition any {A} : A -> Prop := fun _ => True.

(** A stream that, if it fails part-way, fails with a value in [P]. *)
Definition stream_throws_only (P : JsVal -> Prop) (sr : StreamResult)
  : Prop :=
  forall chunks e, sr = AsyncIterable chunks (Some e) -> P e.

(** The record a [try] block may return: a success, or, for the
    systemInstruction probe only, the content-validation failure with its
    full data payload. *)
Definition validation_failure (modelId : string) (r : TestResult) : Prop :=
  success r = false
  /\ message r = JStr runGeminiTests.INSTRUCTION_KO
  /\ exists output,
       data r = Some (JObj [
         ("model", JStr modelId);
         ("instruction", JStr runGeminiTests.SYSTEM_INSTRUCTION);
         ("prompt", JStr runGeminiTests.SYSTEM_PROMPT);
         ("output", output)]).

Definition try_result (p : Probe) (modelId : string) (r : TestResult)
  : Prop :=
  success r = true
  \/ (p = PSystemInstruction /\ validation_failure modelId r).

(** The record a [catch] handler returns. *)
Definition caught_result (r : TestResult) : Prop :=
  success r = false /\ data r = None.

(** The model identifiers of the requests sent, in order. *)
Fixpoint requested_models (t : list Event) : list JsVal :=
  match t with
  | [] => []
  | EvCall _ request :: rest =>
      property request "model" :: requested_models rest
  | _ :: rest => requested_models rest
  end.

Definition not_a_call (ev : Event) : Prop :=
  match ev with
  | EvCall _ _ => False
  | _ => True
  end.

(* ===================================================================== *)
(** ** Vocabulary of the further properties *)
(* ===================================================================== *)

Definition countTokens_request (modelId : string) : JsVal :=
  JObj [("model", JStr modelId);
        ("contents", JStr runGeminiTests.COUNT_PROMPT)].

Definition vision_request (modelId : string) : JsVal :=
  JObj [("model", JStr modelId);
        ("contents", JObj [("parts", JArr [
           JObj [("inlineData", JObj [("mimeType", JStr "image/png");
                                      ("data", JStr SAMPLE_IMAGE_BASE64)])];
           JObj [("text", JStr runGeminiTests.VISION_PROMPT)]])])].

(** The endpoint each probe calls, and the request it sends there. *)
Definition method_of (p : Probe) : Method :=
  match p with
  | PStreamText => GenerateContentStream
  | PCountTokens => CountTokens
  | PEmbedding => EmbedContent
  | PConnect | PGenerateText | PVision | PSystemInstruction => GenerateContent
  end.

Definition request_of (p : Probe) (modelId : string) : JsVal :=
  match p with
  | PConnect => connect_request modelId
  | PGenerateText => generateText_request modelId
  | PStreamText => streamText_request modelId
  | PCountTokens => countTokens_request modelId
  | PVision => vision_request modelId
  | PSystemInstruction => systemInstruction_request modelId
  | PEmbedding => embedding_request
  end.

(** The stub rejects the call of probe [p] with [e]. *)
Definition call_throws (p : Probe) (ai : Client) (modelId : string)
    (e : JsVal) : Prop :=
  match method_of p with
  | GenerateContent =>
      models_generateContent ai (request_of p modelId) = Throw e
  | GenerateContentStream =>
      models_generateContentStream ai (request_of p modelId) = Throw e
  | CountTokens => models_countTokens ai (request_of p modelId) = Throw e
  | EmbedContent => models_embedContent ai (request_of p modelId) = Throw e
  end.

(** The stub completes the call of probe [p] with the value [response];
    the streaming call completes with a stream, not with a value. *)
Definition call_returns (p : Probe) (ai : Client) (modelId : string)
    (response : JsVal) : Prop :=
  match method_of p with
  | GenerateContent =>
      models_generateContent ai (request_of p modelId) = Normal response
  | GenerateContentStream => False
  | CountTokens =>
      models_countTokens ai (request_of p modelId) = Normal response
  | EmbedContent =>
      models_embedContent ai (request_of p modelId) = Normal response
  end.

(** How each handler words an error whose message is the string [msg]. *)
Definition reported (p : Probe) (modelId : string) (msg : string) : string :=
  match p with
  | PConnect => if String.eqb msg "" then "Error de conexión" else msg
  | PVision => "Error en visión (" ++ modelId ++ "): " ++ msg
  | _ => msg
  end.

Definition failure_record (msg : string) : TestResult :=
  {| success := false; message := JStr msg; data := None |}.

(** The events a probe may leave behind: nothing; or the construction of
    one client with the credential of the environment; or that and one
    request, to the probe's endpoint; or, for embedding only, those two and
    one console warning. *)
Definition trace_shape (p : Probe) (w : World) (modelId : string)
    (t : list Event) : Prop :=
  t = []
  \/ exists k,
       API_KEY w = Some k /\ k <> "" /\
       (t = [EvNewClient k]
        \/ t = [EvNewClient k; EvCall (method_of p) (request_of p modelId)]
        \/ (p = PEmbedding /\
            exists response,
              t = [EvNewClient k;
                   EvCall (method_of p) (request_of p modelId);
                   EvWarn [JStr "Embedding response missing values:";
                           response]])).

Definition silent (ev : Event) : Prop := False.

(** A chunk whose [text] converts to the string [f]. *)
Definition chunk_appends (chunk : JsVal) (f : string) : Prop :=
  nullish chunk = false /\ to_string (text_of chunk) = Some f.




(** A world whose constructor throws [e]. *)
Definition failing_constructor (e : JsVal) : World :=
  {| API_KEY := Some "k"; GoogleGenAI := fun _ => Throw e |}.

(* ===================================================================== *)
(** ** The monad and the primitives *)
(* ===================================================================== *)

Lemma append_assoc (a b c : string) : (a ++ b) ++ c = a ++ (b ++ c).
Proof. induction a as [| x a IH]; cbn; [reflexivity | now rewrite IH]. Qed.

Lemma append_nil_r (a : string) : a ++ "" = a.
Proof. induction a as [| x a IH]; cbn; [reflexivity | now rewrite IH]. Qed.

Lemma bind_normal {A B} (t : list Event) (a : A) (f : A -> Js B) :
  bind (t, Normal a) f = ((t ++ fst (f a))%list, snd (f a)).
Proof. cbn. destruct (f a); reflexivity. Qed.

Lemma getAIClient_absent (w : World) :
  key_absent w -> getAIClient w = ([], Throw (new_Error MISSING_KEY)).
Proof.
  unfold getAIClient. intros [H | H]; rewrite H; reflexivity.
Qed.

Lemma getAIClient_present (w : World) (k : string) (ai : Client) :
  has_client w k ai ->
  getAIClient w = ([EvNewClient k], Normal ai).
Proof.
  intros (Hk & Hne & Hc).
  unfold getAIClient. rewrite Hk.
  destruct (String.eqb_spec k "") as [-> | _]; [congruence |].
  cbn. unfold lift. rewrite Hc. reflexivity.
Qed.

Lemma invoke_try_catch (p : Probe) (w : World) (arg : option string) :
  invoke p w arg
  = catch (probe_try p w (model_of arg)) (probe_catch p (model_of arg)).
Proof. destruct p; reflexivity. Qed.

Lemma probe_try_absent (p : Probe) (w : World) (modelId : string) :
  key_absent w ->
  probe_try p w modelId = ([], Throw (new_Error MISSING_KEY)).
Proof.
  intros H.
  destruct p; cbn -[bind];
    unfold runGeminiTests.connect_try, runGeminiTests.generateText_try,
      runGeminiTests.streamText_try, runGeminiTests.countTokens_try,
      runGeminiTests.vision_try, runGeminiTests.systemInstruction_try,
      runGeminiTests.embedding_try;
    rewrite (getAIClient_absent w H); reflexivity.
Qed.

(* ===================================================================== *)
(** ** Missing credential *)
(* ===================================================================== *)

(** C2. With the API_KEY credential absent (unset or empty), every probe
    returns normally, without constructing a client or sending a request, a
    record with [success = false], no data, and a message that is the
    missing-key error message, which the vision probe prefixes with its own
    context and model id. *)
Theorem missing_key_yields_failure
    (p : Probe) (w : World) (arg : option string) :
  key_absent w ->
  exists pre,
    invoke p w arg
    = ([], Normal {| success := false;
                     message := JStr (pre ++ MISSING_KEY);
                     data := None |})
    /\ (p <> PVision -> pre = "").
Proof.
  intros H. rewrite invoke_try_catch, (probe_try_absent p w _ H).
  destruct p;
    try (exists ""; split; [reflexivity | reflexivity]).
  exists ("Error en visión (" ++ model_of arg ++ "): ").
  split; [| congruence].
  rewrite !append_assoc. reflexivity.
Qed.

Lemma missing_key_yields_failure_witness :
  exists pre,
    invoke PVision no_key (Some "gemini-2.5-pro")
    = ([], Normal {| success := false;
                     message := JStr (pre ++ MISSING_KEY);
                     data := None |})
    /\ (PVision <> PVision -> pre = "").
Proof.
  apply (missing_key_yields_failure PVision no_key (Some "gemini-2.5-pro")).
  left. reflexivity.
Defined.

(* ===================================================================== *)
(** ** connect *)
(* ===================================================================== *)

Lemma truthy_not_nullish (v : JsVal) : truthy v = true -> nullish v = false.
Proof. destruct v; cbn; congruence. Qed.

Lemma get_property (v : JsVal) (k : string) :
  nullish v = false -> get v k = ([], Normal (property v k)).
Proof. intros Hn. destruct v; try discriminate Hn; reflexivity. Qed.

Lemma get_text_of (response : JsVal) :
  nullish response = false ->
  get response "text" = ([], Normal (text_of response)).
Proof. apply get_property. Qed.

Lemma property_not_nullish (v : JsVal) (k : string) :
  nullish (property v k) = false -> nullish v = false.
Proof. destruct v; cbn; congruence. Qed.

Lemma connect_cond (response : JsVal) :
  exists c,
    js_and_then response (get response "text") = ([], Normal c)
    /\ truthy c = truthy response && truthy (text_of response).
Proof.
  unfold js_and_then. destruct (truthy response) eqn:E.
  - rewrite (get_text_of _ (truthy_not_nullish _ E)).
    eexists; split; reflexivity.
  - exists response. split; [reflexivity | now rewrite E].
Qed.

(** C5. The connect probe, with the credential present and a stub whose
    call completes: a response without a truthy text (empty text in
    particular) yields the failure record carrying the empty-response
    message and no data; a response with text "pong" (any non-empty text)
    yields success with the text as [data.reply]. *)
Theorem connect_empty_fails_pong_succeeds
    (w : World) (k : string) (ai : Client) (arg : option string)
    (response : JsVal) :
  has_client w k ai ->
  models_generateContent ai (connect_request (model_of arg))
    = Normal response ->
  let trace :=
    [EvNewClient k; EvCall GenerateContent (connect_request (model_of arg))] in
  (text_of response = JStr "" ->
     runGeminiTests.connect w arg
     = (trace, Normal {| success := false;
                         message := JStr "Respuesta vacía del servidor.";
                         data := None |}))
  /\ (forall s, s <> "" -> text_of response = JStr s ->
       runGeminiTests.connect w arg
       = (trace,
          Normal {| success := true;
                    message := JStr ("Conexión exitosa con "
                                     ++ model_of arg ++ ".");
                    data := Some (JObj [("reply", JStr s)]) |})).
Proof.
  intros Hc Hr trace.
  unfold runGeminiTests.connect, runGeminiTests.connect_try.
  fold (model_of arg). fold (connect_request (model_of arg)).
  rewrite (getAIClient_present _ _ _ Hc), bind_normal.
  unfold await_generateContent. rewrite Hr.
  destruct (connect_cond response) as (c & Hcond & Htr).
  split.
  - intros Ht. cbn -[js_and_then get]. rewrite Hcond.
    rewrite Ht, andb_false_r in Htr. cbn. rewrite Htr. reflexivity.
  - intros s Hs Ht. cbn -[js_and_then get]. rewrite Hcond.
    assert (Hresp : truthy response = true).
    { destruct response; cbn in Ht; try discriminate; reflexivity. }
    rewrite Ht, Hresp in Htr. cbn in Htr.
    apply String.eqb_neq in Hs. rewrite Hs in Htr. cbn in Htr.
    cbn -[get].
    rewrite Htr, (get_text_of _ (truthy_not_nullish _ Hresp)), Ht.
    reflexivity.
Qed.

Lemma connect_empty_fails_pong_succeeds_witness :
  let w := returning (JObj [("text", JStr "pong")]) in
  let trace := [EvNewClient "k"; EvCall GenerateContent
                                   (connect_request (model_of None))] in
  (text_of (JObj [("text", JStr "pong")]) = JStr "" ->
     runGeminiTests.connect w None
     = (trace, Normal {| success := false;
                         message := JStr "Respuesta vacía del servidor.";
                         data := None |}))
  /\ (forall s, s <> "" -> text_of (JObj [("text", JStr "pong")]) = JStr s ->
       runGeminiTests.connect w None
       = (trace,
          Normal {| success := true;
                    message := JStr ("Conexión exitosa con "
                                     ++ model_of None ++ ".");
                    data := Some (JObj [("reply", JStr s)]) |})).
Proof.
  apply (connect_empty_fails_pong_succeeds
           (returning (JObj [("text", JStr "pong")])) "k"
           (stub_client (Normal (JObj [("text", JStr "pong")]))
                        (Normal (AsyncIterable [] None)))
           None (JObj [("text", JStr "pong")])).
  - repeat split. discriminate.
  - reflexivity.
Defined.

(* ===================================================================== *)
(** ** generateText *)
(* ===================================================================== *)

(** C7 (amended). The generateText probe, with the credential present and
    a stub whose call completes with a response, that is with any value
    other than [undefined] and [null]: the result is [success = true]
    whatever the text is (empty and absent included), and [data] carries the
    model id, the prompt and that text unchanged. *)
Theorem generateText_succeeds_on_any_output
    (w : World) (k : string) (ai : Client) (arg : option string)
    (response : JsVal) :
  has_client w k ai ->
  models_generateContent ai (generateText_request (model_of arg))
    = Normal response ->
  nullish response = false ->
  runGeminiTests.generateText w arg
  = ([EvNewClient k;
      EvCall GenerateContent (generateText_request (model_of arg))],
     Normal {| success := true;
               message := JStr "Generación de texto correcta.";
               data := Some (JObj [("model", JStr (model_of arg));
                                   ("prompt",
                                    JStr runGeminiTests.GENERATE_PROMPT);
                                   ("output", text_of response)]) |}).
Proof.
  intros Hc Hr Hn.
  unfold runGeminiTests.generateText, runGeminiTests.generateText_try.
  fold (model_of arg). fold (generateText_request (model_of arg)).
  rewrite (getAIClient_present _ _ _ Hc), bind_normal.
  unfold await_generateContent. rewrite Hr.
  cbn -[get]. rewrite (get_text_of _ Hn). reflexivity.
Qed.

Lemma generateText_succeeds_on_any_output_witness :
  runGeminiTests.generateText (returning (JObj [("text", JStr "")])) None
  = ([EvNewClient "k";
      EvCall GenerateContent (generateText_request "gemini-2.5-flash")],
     Normal {| success := true;
               message := JStr "Generación de texto correcta.";
               data := Some (JObj [("model", JStr "gemini-2.5-flash");
                                   ("prompt",
                                    JStr runGeminiTests.GENERATE_PROMPT);
                                   ("output", JStr "")]) |}).
Proof.
  apply (generateText_succeeds_on_any_output
           (returning (JObj [("text", JStr "")])) "k"
           (stub_client (Normal (JObj [("text", JStr "")]))
                        (Normal (AsyncIterable [] None)))
           None (JObj [("text", JStr "")])).
  - repeat split. discriminate.
  - reflexivity.
  - reflexivity.
Defined.

(** C7, as stated, fails: a call that completes with [undefined] in place
    of a response is not reported as a success.  The read of
    [response.text] throws inside the [try] block, and the handler returns
    a failure record without data, after the one request. *)
Lemma generateText_undefined_response_counterexample :
  exists msg,
    runGeminiTests.generateText (returning JUndefined) None
    = ([EvNewClient "k";
        EvCall GenerateContent (generateText_request "gemini-2.5-flash")],
       Normal {| success := false; message := JStr msg; data := None |}).
Proof. eexists. reflexivity. Qed.

(* ===================================================================== *)
(** ** streamText *)
(* ===================================================================== *)

Lemma concat_cons (f : string) (fs : list string) :
  String.concat "" (f :: fs) = f ++ String.concat "" fs.
Proof.
  destruct fs as [| g fs]; cbn; [now rewrite append_nil_r | reflexivity].
Qed.

(** The loop invariant: after the chunks seen so far, the accumulator holds
    their texts appended in order and the counter their number. *)
Lemma for_await_text_chunks (chunks : list JsVal) (fragments : list string) :
  Forall2 (fun c f => text_of c = JStr f) chunks fragments ->
  forall (acc : string) (n : nat),
    for_await_chunks chunks None runGeminiTests.stream_step (acc, n)
    = ([], Normal (acc ++ String.concat "" fragments,
                   (n + List.length fragments)%nat)).
Proof.
  induction 1 as [| c f chunks fragments Hc _ IH]; intros acc n.
  - cbn. now rewrite append_nil_r, Nat.add_0_r.
  - cbn -[get String.concat]. unfold runGeminiTests.stream_step.
    assert (Hn : nullish c = false)
      by (destruct c; cbn in Hc; try discriminate; reflexivity).
    rewrite (get_text_of _ Hn), Hc. cbn -[String.concat].
    rewrite IH, concat_cons, append_assoc, Nat.add_succ_r. reflexivity.
Qed.

(** C4. The streamText probe, with the credential present and a stub
    stream that delivers chunks whose texts are the strings [fragments] and
    then completes: the result is a success whose [data.fullText] is the
    concatenation of the fragments in arrival order and whose
    [data.chunkCount] is their number. *)
Theorem streamText_concatenates_in_arrival_order
    (w : World) (k : string) (ai : Client) (arg : option string)
    (chunks : list JsVal) (fragments : list string) :
  has_client w k ai ->
  models_generateContentStream ai (streamText_request (model_of arg))
    = Normal (AsyncIterable chunks None) ->
  Forall2 (fun c f => text_of c = JStr f) chunks fragments ->
  runGeminiTests.streamText w arg
  = ([EvNewClient k;
      EvCall GenerateContentStream (streamText_request (model_of arg))],
     Normal {| success := true;
               message := JStr ("Streaming completado en "
                                ++ string_of_nat (List.length fragments)
                                ++ " fragmentos.");
               data := Some (JObj [
                 ("model", JStr (model_of arg));
                 ("fullText", JStr (String.concat "" fragments));
                 ("chunkCount", JNum (Z.of_nat (List.length fragments)))]) |}).
Proof.
  intros Hc Hr Hf.
  unfold runGeminiTests.streamText, runGeminiTests.streamText_try.
  fold (model_of arg). fold (streamText_request (model_of arg)).
  rewrite (getAIClient_present _ _ _ Hc), bind_normal.
  unfold await_generateContentStream. rewrite Hr.
  cbn -[for_await_chunks String.concat string_of_nat Z.of_nat].
  rewrite (for_await_text_chunks _ _ Hf).
  reflexivity.
Qed.

Lemma streamText_concatenates_in_arrival_order_witness :
  runGeminiTests.streamText
    (streaming (map text_chunk ["1,"; "2,"; "3"]) None) None
  = ([EvNewClient "k";
      EvCall GenerateContentStream (streamText_request "gemini-2.5-flash")],
     Normal {| success := true;
               message := JStr "Streaming completado en 3 fragmentos.";
               data := Some (JObj [
                 ("model", JStr "gemini-2.5-flash");
                 ("fullText", JStr "1,2,3");
                 ("chunkCount", JNum 3)]) |}).
Proof.
  apply (streamText_concatenates_in_arrival_order
           (streaming (map text_chunk ["1,"; "2,"; "3"]) None) "k"
           (stub_client (Normal JUndefined)
              (Normal (AsyncIterable (map text_chunk ["1,"; "2,"; "3"]) None)))
           None (map text_chunk ["1,"; "2,"; "3"]) ["1,"; "2,"; "3"]).
  - repeat split. discriminate.
  - reflexivity.
  - repeat constructor.
Defined.

(* ===================================================================== *)
(** ** embedding *)
(* ===================================================================== *)

Lemma falsy_property (v : JsVal) (k : string) :
  truthy v = false -> k <> "length" -> property v k = JUndefined.
Proof.
  intros Hv Hk. apply String.eqb_neq in Hk.
  destruct v; cbn in *; rewrite ?Hk; try discriminate; reflexivity.
Qed.

(** The guard [response && response.embedding && response.embedding.values]
    never throws, and is truthy exactly when the vector is. *)
Lemma embedding_guard (response : JsVal) :
  exists c1 c2,
    js_and_then response (get response "embedding") = ([], Normal c1)
    /\ js_and_then c1
         (e <- get response "embedding" ;; get e "values") = ([], Normal c2)
    /\ truthy c2 = truthy (embedding_values response).
Proof.
  unfold js_and_then, embedding_values.
  destruct (truthy response) eqn:Er.
  - pose proof (truthy_not_nullish _ Er) as Hn.
    rewrite (get_property response "embedding" Hn).
    exists (property response "embedding").
    destruct (truthy (property response "embedding")) eqn:Ee.
    + pose proof (truthy_not_nullish _ Ee) as Hne.
      exists (property (property response "embedding") "values").
      rewrite bind_normal, (get_property _ "values" Hne).
      repeat split.
    + exists (property response "embedding"). repeat split.
      rewrite Ee, (falsy_property _ "values" Ee); [reflexivity | discriminate].
  - exists response, response. rewrite Er. repeat split.
    rewrite (falsy_property _ "embedding" Er); [reflexivity | discriminate].
Qed.

(** C6. The embedding probe, with the credential present and a stub whose
    call completes with [response]: if [response.embedding.values] is an
    array, the result is a success whose [data.vectorLength] is its length
    (768 for a vector of 768 entries); if the embedding field, or its values
    vector, is absent, a console warning carrying the raw response is
    emitted after the request and the result is the failure record with the
    malformed-response message and no data. *)
Theorem embedding_reports_vector_length_or_malformed
    (w : World) (k : string) (ai : Client) (response : JsVal) :
  has_client w k ai ->
  models_embedContent ai embedding_request = Normal response ->
  (forall values, embedding_values response = JArr values ->
     runGeminiTests.embedding w
     = ([EvNewClient k; EvCall EmbedContent embedding_request],
        Normal {| success := true;
                  message := JStr "Embedding generado correctamente.";
                  data := Some (JObj [
                    ("model", JStr runGeminiTests.EMBEDDING_MODEL);
                    ("vectorLength",
                     JNum (Z.of_nat (List.length values)))]) |}))
  /\ (embedding_values response = JUndefined ->
      runGeminiTests.embedding w
      = ([EvNewClient k; EvCall EmbedContent embedding_request;
          EvWarn [JStr "Embedding response missing values:"; response]],
         Normal {| success := false;
                   message := JStr runGeminiTests.EMBEDDING_MISSING;
                   data := None |})).
Proof.
  intros Hc Hr.
  unfold runGeminiTests.embedding, runGeminiTests.embedding_try.
  fold embedding_request.
  rewrite (getAIClient_present _ _ _ Hc), bind_normal.
  unfold await_embedContent. rewrite Hr.
  destruct (embedding_guard response) as (c1 & c2 & H1 & H2 & Htr).
  cbn -[js_and_then get] in H2.
  split.
  - intros values Hv. rewrite Hv in Htr. cbn in Htr.
    cbn -[js_and_then get Z.of_nat]. rewrite H1.
    cbn -[js_and_then get Z.of_nat]. rewrite H2.
    cbn -[get Z.of_nat]. rewrite Htr.
    unfold embedding_values in Hv.
    assert (Hne : nullish (property response "embedding") = false).
    { apply (property_not_nullish _ "values"). now rewrite Hv. }
    pose proof (property_not_nullish _ _ Hne) as Hnr.
    rewrite (get_property response "embedding" Hnr).
    cbn -[get Z.of_nat].
    rewrite (get_property _ "values" Hne).
    rewrite Hv. reflexivity.
  - intros Hv. rewrite Hv in Htr. cbn in Htr.
    cbn -[js_and_then get]. rewrite H1.
    cbn -[js_and_then get]. rewrite H2.
    cbn. rewrite Htr. reflexivity.
Qed.

Lemma embedding_reports_vector_length_or_malformed_witness :
  runGeminiTests.embedding
    (returning (JObj [("embedding",
                       JObj [("values", JArr (repeat (JNum 0) 768))])]))
  = ([EvNewClient "k"; EvCall EmbedContent embedding_request],
     Normal {| success := true;
               message := JStr "Embedding generado correctamente.";
               data := Some (JObj [
                 ("model", JStr runGeminiTests.EMBEDDING_MODEL);
                 ("vectorLength", JNum 768)]) |})
  /\ runGeminiTests.embedding (returning (JObj [("metadata", JObj [])]))
     = ([EvNewClient "k"; EvCall EmbedContent embedding_request;
         EvWarn [JStr "Embedding response missing values:";
                 JObj [("metadata", JObj [])]]],
        Normal {| success := false;
                  message := JStr runGeminiTests.EMBEDDING_MISSING;
                  data := None |}).
Proof.
  split.
  - apply (proj1 (embedding_reports_vector_length_or_malformed
             (returning (JObj [("embedding",
                JObj [("values", JArr (repeat (JNum 0) 768))])])) "k"
             (stub_client (Normal (JObj [("embedding",
                JObj [("values", JArr (repeat (JNum 0) 768))])]))
                (Normal (AsyncIterable [] None)))
             (JObj [("embedding",
                JObj [("values", JArr (repeat (JNum 0) 768))])])
             ltac:(repeat split; discriminate) eq_refl)
           (repeat (JNum 0) 768) eq_refl).
  - apply (proj2 (embedding_reports_vector_length_or_malformed
             (returning (JObj [("metadata", JObj [])])) "k"
             (stub_client (Normal (JObj [("metadata", JObj [])]))
                (Normal (AsyncIterable [] None)))
             (JObj [("metadata", JObj [])])
             ltac:(repeat split; discriminate) eq_refl)
           eq_refl).
Defined.

(* ===================================================================== *)
(** ** Substrings and letter case *)
(* ===================================================================== *)

Section StringFacts.

Lemma prefix_spec (t s : string) :
  String.prefix t s = true <-> exists post, s = t ++ post.
Proof.
  revert t. induction s as [| b s IH]; intros [| a t]; cbn.
  - split; [exists ""; reflexivity | reflexivity].
  - split; [discriminate | intros (post & H); discriminate].
  - split; [intros _; eexists; reflexivity | reflexivity].
  - destruct (ascii_dec a b) as [-> | Hab].
    + rewrite IH. split; intros (post & H); exists post; congruence.
    + split; [discriminate | intros (post & H); congruence].
Qed.

Lemma includes_spec (s t : string) :
  includes s t = true <-> exists pre post, s = pre ++ t ++ post.
Proof.
  induction s as [| c s IH].
  - cbn [includes]. rewrite orb_false_r, prefix_spec. split.
    + intros (post & H). exists "", post. exact H.
    + intros ([| x pre] & post & H); [exists post; exact H | discriminate].
  - cbn [includes]. rewrite orb_true_iff, prefix_spec, IH. split.
    + intros [(post & H) | (pre & post & H)].
      * exists "", post. exact H.
      * exists (String c pre), post. cbn. now rewrite H.
    + intros ([| x pre] & post & H).
      * left. exists post. exact H.
      * right. exists pre, post. cbn in H. congruence.
Qed.

Lemma toLowerCase_app (a b : string) :
  toLowerCase (a ++ b) = toLowerCase a ++ toLowerCase b.
Proof. induction a as [| c a IH]; cbn; [reflexivity | now rewrite IH]. Qed.

(** [toLowerCase] works letter by letter, so a split of the lowered text
    comes from a split of the text. *)
Lemma toLowerCase_app_inv (s a b : string) :
  toLowerCase s = a ++ b ->
  exists s1 s2, s = s1 ++ s2 /\ toLowerCase s1 = a /\ toLowerCase s2 = b.
Proof.
  revert s. induction a as [| x a IH]; intros s H.
  - exists "", s. repeat split. exact H.
  - destruct s as [| c s]; [discriminate |].
    cbn in H. injection H as Hc Hs.
    destruct (IH _ Hs) as (s1 & s2 & -> & H1 & H2).
    exists (String c s1), s2. cbn. now rewrite Hc, H1.
Qed.

Lemma lower_ascii_cases (c : ascii) :
  (lower_ascii c = c /\ ~ (65 <= nat_of_ascii c <= 90)%nat)
  \/ ((65 <= nat_of_ascii c <= 90)%nat
      /\ nat_of_ascii (lower_ascii c) = (nat_of_ascii c + 32)%nat).
Proof.
  unfold lower_ascii. cbv zeta.
  destruct (Nat.leb_spec 65 (nat_of_ascii c));
    destruct (Nat.leb_spec (nat_of_ascii c) 90); cbn [andb];
    try (left; split; [reflexivity | lia]).
  right. split; [lia |]. apply nat_ascii_embedding. lia.
Qed.

Lemma nat_of_ascii_inj (c d : ascii) :
  nat_of_ascii c = nat_of_ascii d -> c = d.
Proof.
  intros H. rewrite <- (ascii_nat_embedding c), <- (ascii_nat_embedding d).
  now rewrite H.
Qed.

Lemma lower_ascii_same_letter (c : ascii) : same_letter c (lower_ascii c).
Proof.
  destruct (lower_ascii_cases c) as [[H _] | [Hu Hn]].
  - left. now rewrite H.
  - right. right. split; assumption.
Qed.

(** On a keyword letter that is already lower case, being the same letter
    up to case is being equal after lowering. *)
Lemma same_letter_lower (c d : ascii) :
  same_letter c d -> lower_ascii d = d -> lower_ascii c = d.
Proof.
  intros [-> | [[Hu Hn] | [Hu Hn]]] Hd.
  - exact Hd.
  - destruct (lower_ascii_cases d) as [[_ Hnu] | [_ Hl]];
      [contradiction | rewrite Hd in Hl; lia].
  - apply nat_of_ascii_inj.
    destruct (lower_ascii_cases c) as [[_ Hnu] | [_ Hl]];
      [contradiction | lia].
Qed.

Lemma toLowerCase_eq_ignoring_case (mid : string) :
  eq_ignoring_case mid (toLowerCase mid).
Proof.
  induction mid as [| c mid IH]; cbn; constructor;
    [apply lower_ascii_same_letter | exact IH].
Qed.

Lemma eq_ignoring_case_lower (mid kw : string) :
  eq_ignoring_case mid kw -> toLowerCase kw = kw -> toLowerCase mid = kw.
Proof.
  induction 1 as [| c d s t Hcd _ IH]; intros Hkw; [reflexivity |].
  cbn in Hkw |- *. injection Hkw as Hd Ht.
  now rewrite (same_letter_lower _ _ Hcd Hd), (IH Ht).
Qed.

(** The check of the source, [s.toLowerCase().includes(kw)], decides
    exactly the occurrence of a lower-case keyword up to letter case. *)
Lemma includes_toLowerCase_spec (s kw : string) :
  toLowerCase kw = kw ->
  includes (toLowerCase s) kw = true <-> contains_ignoring_case s kw.
Proof.
  intros Hkw. rewrite includes_spec. split.
  - intros (pre' & post' & H).
    destruct (toLowerCase_app_inv _ _ _ H) as (pre & rest & -> & _ & Hrest).
    destruct (toLowerCase_app_inv _ _ _ Hrest) as (mid & post & -> & Hm & _).
    exists pre, mid, post. split; [reflexivity |].
    rewrite <- Hm. apply toLowerCase_eq_ignoring_case.
  - intros (pre & mid & post & -> & Hm).
    exists (toLowerCase pre), (toLowerCase post).
    now rewrite !toLowerCase_app, (eq_ignoring_case_lower _ _ Hm Hkw).
Qed.

End StringFacts.

(* ===================================================================== *)
(** ** systemInstruction *)
(* ===================================================================== *)

Lemma js_or_string_default (s : string) : js_or (JStr s) (JStr "") = JStr s.
Proof.
  unfold js_or. cbn. destruct (String.eqb_spec s "") as [-> | _]; reflexivity.
Qed.

(** With the call completed and a response whose text is the string [s],
    the probe returns a record whose [success] is decided by the keyword. *)
Lemma systemInstruction_on_text
    (w : World) (k : string) (ai : Client) (arg : option string)
    (response : JsVal) (s : string) :
  has_client w k ai ->
  models_generateContent ai (systemInstruction_request (model_of arg))
    = Normal response ->
  text_of response = JStr s ->
  exists r,
    runGeminiTests.systemInstruction w arg
    = ([EvNewClient k;
        EvCall GenerateContent (systemInstruction_request (model_of arg))],
       Normal r)
    /\ (success r = true <-> contains_ignoring_case s "miau")
    /\ message r = JStr (if success r then runGeminiTests.INSTRUCTION_OK
                         else runGeminiTests.INSTRUCTION_KO)
    /\ data r = Some (JObj [
         ("model", JStr (model_of arg));
         ("instruction", JStr runGeminiTests.SYSTEM_INSTRUCTION);
         ("prompt", JStr runGeminiTests.SYSTEM_PROMPT);
         ("output", JStr s)]).
Proof.
  intros Hc Hr Ht.
  assert (Hn : nullish response = false)
    by (destruct response; cbn in Ht; try discriminate; reflexivity).
  unfold runGeminiTests.systemInstruction,
    runGeminiTests.systemInstruction_try.
  fold (model_of arg). fold (systemInstruction_request (model_of arg)).
  rewrite (getAIClient_present _ _ _ Hc), bind_normal.
  unfold await_generateContent. rewrite Hr.
  cbn -[get js_or call_toLowerCase_includes].
  rewrite (get_text_of _ Hn), Ht.
  cbn -[js_or call_toLowerCase_includes].
  rewrite js_or_string_default.
  cbn -[includes toLowerCase].
  eexists. split; [reflexivity |]. cbn -[includes toLowerCase].
  split; [| split; reflexivity].
  apply includes_toLowerCase_spec. reflexivity.
Qed.

(** C3. The systemInstruction probe, with the credential present and a
    stub whose call completes with a response whose text is the string [s]:
    the probe returns a record whose [success] is true if and only if [s]
    contains the keyword "miau" as a substring, letter case ignored; the
    message tells the two outcomes apart, and the data payload (model,
    instruction, prompt, output) is present in both.  In particular the
    output "Miau!" contains the keyword and yields success, and the output
    "Hello" does not and yields [success = false] with the message that the
    instruction was not followed strictly, although the call completed. *)
Theorem systemInstruction_success_iff_keyword :
  (forall (w : World) (k : string) (ai : Client) (arg : option string)
          (response : JsVal) (s : string),
     has_client w k ai ->
     models_generateContent ai (systemInstruction_request (model_of arg))
       = Normal response ->
     text_of response = JStr s ->
     exists r,
       runGeminiTests.systemInstruction w arg
       = ([EvNewClient k;
           EvCall GenerateContent (systemInstruction_request (model_of arg))],
          Normal r)
       /\ (success r = true <-> contains_ignoring_case s "miau")
       /\ message r = JStr (if success r then runGeminiTests.INSTRUCTION_OK
                            else runGeminiTests.INSTRUCTION_KO)
       /\ data r = Some (JObj [
            ("model", JStr (model_of arg));
            ("instruction", JStr runGeminiTests.SYSTEM_INSTRUCTION);
            ("prompt", JStr runGeminiTests.SYSTEM_PROMPT);
            ("output", JStr s)]))
  /\ (contains_ignoring_case "Miau!" "miau"
      /\ snd (runGeminiTests.systemInstruction
                (returning (JObj [("text", JStr "Miau!")])) None)
         = Normal {| success := true;
                     message := JStr runGeminiTests.INSTRUCTION_OK;
                     data := Some (JObj [
                       ("model", JStr "gemini-2.5-flash");
                       ("instruction",
                        JStr runGeminiTests.SYSTEM_INSTRUCTION);
                       ("prompt", JStr runGeminiTests.SYSTEM_PROMPT);
                       ("output", JStr "Miau!")]) |})
  /\ (~ contains_ignoring_case "Hello" "miau"
      /\ snd (runGeminiTests.systemInstruction
                (returning (JObj [("text", JStr "Hello")])) None)
         = Normal {| success := false;
                     message := JStr runGeminiTests.INSTRUCTION_KO;
                     data := Some (JObj [
                       ("model", JStr "gemini-2.5-flash");
                       ("instruction",
                        JStr runGeminiTests.SYSTEM_INSTRUCTION);
                       ("prompt", JStr runGeminiTests.SYSTEM_PROMPT);
                       ("output", JStr "Hello")]) |}).
Proof.
  split; [exact systemInstruction_on_text |].
  split; (split; [| reflexivity]).
  - apply (includes_toLowerCase_spec "Miau!" "miau"); reflexivity.
  - intros H.
    apply (includes_toLowerCase_spec "Hello" "miau") in H;
      [discriminate | reflexivity].
Qed.

Lemma systemInstruction_success_iff_keyword_witness :
  exists r,
    runGeminiTests.systemInstruction
      (returning (JObj [("text", JStr "miAU miau")])) (Some "gemini-2.5-pro")
    = ([EvNewClient "k";
        EvCall GenerateContent (systemInstruction_request "gemini-2.5-pro")],
       Normal r)
    /\ (success r = true <-> contains_ignoring_case "miAU miau" "miau")
    /\ message r = JStr (if success r then runGeminiTests.INSTRUCTION_OK
                         else runGeminiTests.INSTRUCTION_KO)
    /\ data r = Some (JObj [
         ("model", JStr "gemini-2.5-pro");
         ("instruction", JStr runGeminiTests.SYSTEM_INSTRUCTION);
         ("prompt", JStr runGeminiTests.SYSTEM_PROMPT);
         ("output", JStr "miAU miau")]).
Proof.
  apply (proj1 systemInstruction_success_iff_keyword
           (returning (JObj [("text", JStr "miAU miau")])) "k"
           (stub_client (Normal (JObj [("text", JStr "miAU miau")]))
                        (Normal (AsyncIterable [] None)))
           (Some "gemini-2.5-pro") (JObj [("text", JStr "miAU miau")])
           "miAU miau").
  - repeat split. discriminate.
  - reflexivity.
  - reflexivity.
Defined.

(* ===================================================================== *)
(** ** Rules of the program logic *)
(* ===================================================================== *)

Section Logic.

Variable QE : Event -> Prop.
Variable QT : JsVal -> Prop.

Lemma holds_ret {A} (QN : A -> Prop) (a : A) :
  QN a -> holds QE QN QT (ret a).
Proof. intros H. split; [constructor | exact H]. Qed.

Lemma holds_raise {A} (QN : A -> Prop) (e : JsVal) :
  QT e -> holds QE QN QT (raise e).
Proof. intros H. split; [constructor | exact H]. Qed.

Lemma holds_emit (QN : unit -> Prop) (ev : Event) :
  QE ev -> QN tt -> holds QE QN QT (emit ev).
Proof. intros He Hn. split; [repeat constructor; exact He | exact Hn]. Qed.

Lemma holds_lift {A} (QN : A -> Prop) (c : Completion A) :
  match c with Normal a => QN a | Throw e => QT e end ->
  holds QE QN QT (lift c).
Proof. intros H. split; [constructor | exact H]. Qed.

Lemma holds_bind {A B} (QM : A -> Prop) (QN : B -> Prop)
    (m : Js A) (f : A -> Js B) :
  holds QE QM QT m ->
  (forall a, QM a -> holds QE QN QT (f a)) ->
  holds QE QN QT (bind m f).
Proof.
  destruct m as [t [a | e]]; intros [Ht Hc] Hf; cbn in *.
  - destruct (Hf a Hc) as [Ht' Hc']. destruct (f a) as [t' c]. cbn in *.
    split; [apply Forall_app; split; assumption | exact Hc'].
  - split; assumption.
Qed.

Lemma holds_get (v : JsVal) (k : string) :
  (forall msg, QT (new_TypeError msg)) ->
  holds QE any QT (get v k).
Proof.
  intros H. destruct v; cbn;
    (split; [constructor | first [exact I | apply H]]).
Qed.

Lemma holds_js_and_then (a : JsVal) (b : Js JsVal) :
  holds QE any QT b -> holds QE any QT (js_and_then a b).
Proof.
  intros H. unfold js_and_then. destruct (truthy a);
    [exact H | apply holds_ret; exact I].
Qed.

Lemma holds_js_to_string (v : JsVal) :
  (forall msg, QT (new_TypeError msg)) ->
  holds QE any QT (js_to_string v).
Proof.
  intros H. unfold js_to_string.
  destruct (to_string v); [apply holds_ret; exact I | apply holds_raise, H].
Qed.

Lemma holds_call_toLowerCase_includes (v : JsVal) (kw : string) :
  (forall msg, QT (new_TypeError msg)) ->
  holds QE any QT (call_toLowerCase_includes v kw).
Proof.
  intros H.
  destruct v; cbn -[get bind raise];
    try (apply holds_ret; exact I);
    (eapply holds_bind; [apply holds_get, H |]; intros f _;
     destruct f; apply holds_raise, H).
Qed.

Lemma holds_for_await {S : Type} (sr : StreamResult)
    (body : JsVal -> S -> Js S) (st : S) :
  (forall msg, QT (new_TypeError msg)) ->
  (forall chunks e, sr = AsyncIterable chunks (Some e) -> QT e) ->
  (forall chunk st', holds QE any QT (body chunk st')) ->
  holds QE any QT (for_await sr body st).
Proof.
  intros Hty Hsr Hbody. destruct sr as [chunks failure |];
    [| apply holds_raise, Hty].
  cbn [for_await]. revert st.
  induction chunks as [| c chunks IH]; intros st; cbn [for_await_chunks].
  - destruct failure as [e |];
      [apply holds_raise; exact (Hsr [] e eq_refl) | apply holds_ret; exact I].
  - eapply holds_bind; [apply Hbody | intros st' _].
    apply IH. intros chunks' e [= -> ->].
    exact (Hsr (c :: chunks') e eq_refl).
Qed.

Lemma holds_stream_step (chunk : JsVal) (st : string * nat) :
  (forall msg, QT (new_TypeError msg)) ->
  holds QE any QT (runGeminiTests.stream_step chunk st).
Proof.
  intros Hty. unfold runGeminiTests.stream_step.
  eapply holds_bind; [apply holds_get, Hty | intros text _].
  eapply holds_bind; [apply holds_js_to_string, Hty | intros appended _].
  apply holds_ret. exact I.
Qed.

Lemma holds_any {A} (m : Js A) : holds any any any m.
Proof.
  split; [apply Forall_forall; intros; exact I | destruct (snd m); exact I].
Qed.

End Logic.

(** One step of symbolic execution in the program logic. *)
Ltac js_rule :=
  lazymatch goal with
  | |- holds _ _ _ (bind (emit _) _) =>
      eapply (holds_bind _ _ any); [apply holds_emit | intros _ _]
  | |- holds _ _ _ (bind _ _) => eapply holds_bind; [| intros ? ?]
  | |- holds _ _ _ (ret _) => apply holds_ret
  | |- holds _ _ _ (raise _) => apply holds_raise
  | |- holds _ _ _ (get _ _) => apply holds_get
  | |- holds _ _ _ (js_and_then _ _) => apply holds_js_and_then
  | |- holds _ _ _ (js_to_string _) => apply holds_js_to_string
  | |- holds _ _ _ (call_toLowerCase_includes _ _) =>
      apply holds_call_toLowerCase_includes
  | |- holds _ _ _ (emit _) => apply holds_emit
  | |- holds _ _ _ (if ?b then _ else _) => destruct b
  end.

(* ===================================================================== *)
(** ** No probe raises, provided what is thrown is a value *)
(* ===================================================================== *)

Section ThrowsOnly.

Variable P : JsVal -> Prop.
Hypothesis P_TypeError : forall msg, P (new_TypeError msg).
Hypothesis P_Error : forall msg, P (new_Error msg).

Variable w : World.
Hypothesis Hw : throws_only P w.

Lemma getAIClient_throws_only :
  holds any (client_throws_only P) P (getAIClient w).
Proof.
  destruct Hw as [Hctor Hcli]. unfold getAIClient.
  destruct (API_KEY w) as [k |]; [| apply holds_raise, P_Error].
  destruct (String.eqb k ""); [apply holds_raise, P_Error |].
  eapply (holds_bind _ _ any); [apply holds_emit; exact I | intros _ _].
  apply holds_lift. destruct (GoogleGenAI w k) as [ai | e] eqn:E.
  - exact (Hcli k ai E).
  - exact (Hctor k e E).
Qed.

Lemma await_generateContent_throws_only (ai : Client) (request : JsVal) :
  client_throws_only P ai ->
  holds any any P (await_generateContent ai request).
Proof.
  intros (Hg & _). split; [repeat constructor |]. cbn.
  destruct (models_generateContent ai request) eqn:E;
    [exact I | exact (Hg _ _ E)].
Qed.

Lemma await_generateContentStream_throws_only
    (ai : Client) (request : JsVal) :
  client_throws_only P ai ->
  holds any (stream_throws_only P) P
    (await_generateContentStream ai request).
Proof.
  intros (_ & Hs & Hsf & _). split; [repeat constructor |]. cbn.
  destruct (models_generateContentStream ai request) as [sr | e] eqn:E.
  - intros chunks e ->. exact (Hsf _ _ _ E).
  - exact (Hs _ _ E).
Qed.

Lemma await_countTokens_throws_only (ai : Client) (request : JsVal) :
  client_throws_only P ai ->
  holds any any P (await_countTokens ai request).
Proof.
  intros (_ & _ & _ & Hc & _). split; [repeat constructor |]. cbn.
  destruct (models_countTokens ai request) eqn:E;
    [exact I | exact (Hc _ _ E)].
Qed.

Lemma await_embedContent_throws_only (ai : Client) (request : JsVal) :
  client_throws_only P ai ->
  holds any any P (await_embedContent ai request).
Proof.
  intros (_ & _ & _ & _ & He). split; [repeat constructor |]. cbn.
  destruct (models_embedContent ai request) eqn:E;
    [exact I | exact (He _ _ E)].
Qed.

(** What a [try] block throws is what the stub threw, or an error the
    block or the runtime made. *)
Lemma probe_try_throws_only (p : Probe) (modelId : string) :
  holds any any P (probe_try p w modelId).
Proof.
  destruct p; cbn [probe_try];
    unfold runGeminiTests.connect_try, runGeminiTests.generateText_try,
      runGeminiTests.streamText_try, runGeminiTests.countTokens_try,
      runGeminiTests.vision_try, runGeminiTests.systemInstruction_try,
      runGeminiTests.embedding_try; cbv zeta;
    (eapply holds_bind; [apply getAIClient_throws_only | intros ai Hai]);
    (eapply holds_bind;
     [first [ apply await_generateContent_throws_only
            | apply await_generateContentStream_throws_only
            | apply await_countTokens_throws_only
            | apply await_embedContent_throws_only ]; exact Hai
     | intros response Hresp]).
  all: try (eapply holds_bind;
            [apply holds_for_await;
             [exact P_TypeError | exact Hresp
             | intros; apply holds_stream_step; exact P_TypeError]
            | intros ? ?]).
  all: repeat js_rule;
    try exact I; try exact P_TypeError; try apply P_Error.
Qed.

End ThrowsOnly.

Lemma catchable_TypeError (p : Probe) (msg : string) :
  catchable p (new_TypeError msg).
Proof. split; [reflexivity | intros _; discriminate]. Qed.

Lemma catchable_Error (p : Probe) (msg : string) :
  catchable p (new_Error msg).
Proof. split; [reflexivity | intros _; discriminate]. Qed.

(** Every handler, given a value it can handle, returns a failure record
    without data and emits nothing. *)
Lemma probe_catch_on_catchable (p : Probe) (modelId : string) (e : JsVal) :
  catchable p e ->
  exists r,
    probe_catch p modelId e = ([], Normal r)
    /\ success r = false /\ data r = None.
Proof.
  intros [He Hm].
  destruct p; cbn [probe_catch];
    unfold runGeminiTests.connect_catch, runGeminiTests.plain_catch,
      runGeminiTests.vision_catch;
    rewrite (get_property e "message" He);
    try (eexists; (split; [reflexivity | split; reflexivity])).
  specialize (Hm eq_refl). unfold js_to_string. cbn -[to_string].
  destruct (to_string (property e "message")) as [shown |]; [| congruence].
  eexists; (split; [reflexivity | split; reflexivity]).
Qed.

(** C1 (amended). If whatever the stub throws -- from the constructor,
    from a call, or part-way through a stream -- is an actual value (not
    [undefined], not [null]) and, for the vision probe, carries a message
    that converts to a string, then the probe, for every argument, returns a
    record normally; and whenever its [try] block threw, that record has
    [success = false] and no data. *)
Theorem probes_return_when_thrown_values_are_defined
    (p : Probe) (w : World) (arg : option string) :
  throws_only (catchable p) w ->
  exists t r,
    invoke p w arg = (t, Normal r)
    /\ (forall t' e, probe_try p w (model_of arg) = (t', Throw e) ->
        success r = false /\ data r = None).
Proof.
  intros Hw. rewrite invoke_try_catch.
  destruct (probe_try_throws_only (catchable p) (catchable_TypeError p)
              (catchable_Error p) w Hw p (model_of arg)) as [_ Hc].
  destruct (probe_try p w (model_of arg)) as [t [r | e]]; cbn in Hc.
  - exists t, r. split; [reflexivity | discriminate].
  - destruct (probe_catch_on_catchable p (model_of arg) e Hc)
      as (r & Hr & Hs & Hd).
    exists (t ++ [])%list, r. cbn. rewrite Hr. split; [reflexivity |].
    intros _ _ _. split; assumption.
Qed.

Lemma probes_return_when_thrown_values_are_defined_witness :
  exists t r,
    invoke PStreamText
      (streaming [text_chunk "1,"] (Some (new_Error "socket hang up")))
      None = (t, Normal r)
    /\ (forall t' e,
          probe_try PStreamText
            (streaming [text_chunk "1,"] (Some (new_Error "socket hang up")))
            (model_of None) = (t', Throw e) ->
          success r = false /\ data r = None).
Proof.
  apply (probes_return_when_thrown_values_are_defined PStreamText
           (streaming [text_chunk "1,"] (Some (new_Error "socket hang up")))
           None).
  split.
  - intros k e H. discriminate H.
  - intros k ai H. injection H as <-.
    repeat split; intros; try discriminate.
    cbn in H. injection H as _ <-. reflexivity.
Defined.

(** C1, as stated, fails: a stub whose call rejects with [undefined] makes
    the handler's own read of [error.message] throw, and the probe raises. *)
Lemma probes_never_raise_counterexample :
  invoke PConnect (throwing JUndefined) None
  = ([EvNewClient "k";
      EvCall GenerateContent (connect_request "gemini-2.5-flash")],
     Throw (new_TypeError
              "Cannot read properties of undefined (reading 'message')"))
  /\ ~ returns (invoke PConnect (throwing JUndefined) None).
Proof.
  split; [reflexivity |]. intros (t & r & H). discriminate H.
Qed.

(* ===================================================================== *)
(** ** Failure records and their data *)
(* ===================================================================== *)

Ltac js_skip :=
  eapply (holds_bind _ _ any); [apply holds_any | intros ? _].

Lemma probe_try_result (p : Probe) (w : World) (modelId : string) :
  holds any (try_result p modelId) any (probe_try p w modelId).
Proof.
  destruct p; cbn [probe_try];
    unfold runGeminiTests.connect_try, runGeminiTests.generateText_try,
      runGeminiTests.streamText_try, runGeminiTests.countTokens_try,
      runGeminiTests.vision_try, runGeminiTests.systemInstruction_try,
      runGeminiTests.embedding_try; cbv zeta;
    repeat js_skip;
    repeat js_rule; try (intros; exact I); try (left; reflexivity).
  match goal with
  | |- try_result _ _ {| success := ?isCorrect |} => destruct isCorrect
  end;
    [left; reflexivity | right; repeat split; eexists; reflexivity].
Qed.

Lemma probe_catch_result (p : Probe) (modelId : string) (e : JsVal) :
  holds any caught_result any (probe_catch p modelId e).
Proof.
  destruct p; cbn [probe_catch];
    unfold runGeminiTests.connect_catch, runGeminiTests.plain_catch,
      runGeminiTests.vision_catch;
    repeat js_skip; apply holds_ret; split; reflexivity.
Qed.



(* ===================================================================== *)
(** ** Errors that carry no message *)
(* ===================================================================== *)

(** C8. The code breaks the claim.  A call rejected with a value that has
    no [message] -- here the object [{ code: 429 }] -- is caught by
    generateText, streamText, countTokens, systemInstruction and embedding,
    whose handler copies [error.message] as it is: the record's [message]
    is [undefined], not a string.  On the same rejection the handler of
    connect falls back to a fixed text, and that of vision splices
    "undefined" into its own. *)
Theorem messageless_error_leaves_message_undefined :
  let rejected := throwing (JObj [("code", JNum 429)]) in
  Forall (fun p =>
            snd (invoke p rejected None)
            = Normal {| success := false;
                        message := JUndefined;
                        data := None |})
         [PGenerateText; PStreamText; PCountTokens; PSystemInstruction;
          PEmbedding]
  /\ snd (invoke PConnect rejected None)
     = Normal {| success := false;
                 message := JStr "Error de conexión";
                 data := None |}
  /\ snd (invoke PVision rejected None)
     = Normal {| success := false;
                 message :=
                   JStr "Error en visión (gemini-2.5-flash): undefined";
                 data := None |}.
Proof. repeat split; repeat constructor. Qed.

(* ===================================================================== *)
(** ** The model identifier of the outbound request *)
(* ===================================================================== *)

Lemma requested_models_app (t t' : list Event) :
  requested_models (t ++ t') = (requested_models t ++ requested_models t')%list.
Proof.
  induction t as [| [k | m req | args] t IH]; cbn; [reflexivity | | |];
    now rewrite IH.
Qed.

Lemma requested_models_quiet (t : list Event) :
  Forall not_a_call t -> requested_models t = [].
Proof.
  induction 1 as [| [k | m req | args] t Hev _ IH]; cbn;
    [reflexivity | assumption | contradiction | assumption].
Qed.

Lemma fst_bind {A B} (m : Js A) (f : A -> Js B) :
  fst (bind m f)
  = (fst m ++ match snd m with
              | Normal a => fst (f a)
              | Throw _ => []
              end)%list.
Proof.
  destruct m as [t [a | e]]; cbn.
  - destruct (f a); reflexivity.
  - now rewrite app_nil_r.
Qed.

Lemma fst_catch {A} (m : Js A) (h : JsVal -> Js A) :
  fst (catch m h)
  = (fst m ++ match snd m with
              | Normal _ => []
              | Throw e => fst (h e)
              end)%list.
Proof.
  destruct m as [t [a | e]]; cbn.
  - now rewrite app_nil_r.
  - destruct (h e); reflexivity.
Qed.

(** After the request, a [try] block sends nothing more. *)
Ltac quiet_tail :=
  lazymatch goal with
  | |- Forall not_a_call (match ?c with Normal _ => _ | Throw _ => _ end) =>
      destruct c as [response | e]; [| constructor];
      refine (proj1 (_ : holds not_a_call any any _));
      try (eapply holds_bind;
           [apply holds_for_await;
            [intros; exact I | intros; exact I
            | intros; apply holds_stream_step; intros; exact I]
           | intros ? ?]);
      repeat js_rule; try (intros; exact I)
  end.

Lemma probe_try_trace (p : Probe) (w : World) (k : string) (ai : Client)
    (modelId : string) :
  has_client w k ai ->
  exists meth request tail,
    fst (probe_try p w modelId) = EvNewClient k :: EvCall meth request :: tail
    /\ property request "model"
       = JStr (match p with
               | PEmbedding => runGeminiTests.EMBEDDING_MODEL
               | _ => modelId
               end)
    /\ Forall not_a_call tail.
Proof.
  intros Hc.
  destruct p; cbn [probe_try];
    unfold runGeminiTests.connect_try, runGeminiTests.generateText_try,
      runGeminiTests.streamText_try, runGeminiTests.countTokens_try,
      runGeminiTests.vision_try, runGeminiTests.systemInstruction_try,
      runGeminiTests.embedding_try; cbv zeta;
    rewrite fst_bind, (getAIClient_present _ _ _ Hc); cbn [fst snd app];
    rewrite fst_bind; cbn [fst snd app];
    (do 3 eexists; split; [reflexivity | split; [reflexivity |]]);
    quiet_tail.
Qed.

Lemma probe_catch_quiet (p : Probe) (modelId : string) (e : JsVal) :
  Forall not_a_call (fst (probe_catch p modelId e)).
Proof.
  refine (proj1 (_ : holds not_a_call any any _)).
  destruct p; cbn [probe_catch];
    unfold runGeminiTests.connect_catch, runGeminiTests.plain_catch,
      runGeminiTests.vision_catch;
    repeat js_rule; try (intros; exact I).
Qed.

(** C9, as stated, fails for the embedding probe: it declares no model
    parameter, and a model identifier supplied by the caller is not the one
    in the outbound request. *)
Lemma embedding_ignores_model_counterexample :
  requested_models
    (fst (invoke PEmbedding (returning (JObj [])) (Some "gemini-2.5-pro")))
  = [JStr "text-embedding-004"]
  /\ requested_models
       (fst (invoke PEmbedding (returning (JObj [])) (Some "gemini-2.5-pro")))
     <> [JStr "gemini-2.5-pro"].
Proof. split; [reflexivity | discriminate]. Qed.

(** C9 (amended). With the credential present, each probe sends exactly
    one request.  For connect, generateText, streamText, countTokens, vision
    and systemInstruction its model identifier is the one the caller
    supplies, and "gemini-2.5-flash" when none is supplied; for embedding it
    is always "text-embedding-004", whatever the caller supplies. *)
Theorem request_model_is_override_or_default
    (p : Probe) (w : World) (k : string) (ai : Client)
    (arg : option string) :
  has_client w k ai ->
  requested_models (fst (invoke p w arg))
  = [JStr match p, arg with
          | PEmbedding, _ => "text-embedding-004"
          | _, Some modelId => modelId
          | _, None => "gemini-2.5-flash"
          end].
Proof.
  intros Hc. rewrite invoke_try_catch, fst_catch, requested_models_app.
  destruct (probe_try_trace p w k ai (model_of arg) Hc)
    as (meth & request & tail & -> & Hm & Hq).
  cbn [requested_models]. rewrite Hm, (requested_models_quiet _ Hq).
  replace (requested_models _) with (@nil JsVal).
  - destruct p, arg; reflexivity.
  - destruct (snd (probe_try p w (model_of arg))); [reflexivity |].
    symmetry. apply requested_models_quiet, probe_catch_quiet.
Qed.

Lemma request_model_is_override_or_default_witness :
  requested_models
    (fst (invoke PVision (returning (JObj [("text", JStr "rojo")]))
            (Some "gemini-2.5-pro")))
  = [JStr "gemini-2.5-pro"].
Proof.
  apply (request_model_is_override_or_default PVision
           (returning (JObj [("text", JStr "rojo")])) "k"
           (stub_client (Normal (JObj [("text", JStr "rojo")]))
                        (Normal (AsyncIterable [] None)))
           (Some "gemini-2.5-pro")).
  repeat split. discriminate.
Defined.

(* ===================================================================== *)
(** ** Further properties: how failures are reported *)
(* ===================================================================== *)

Ltac unfold_probes :=
  unfold runGeminiTests.connect_try, runGeminiTests.generateText_try,
    runGeminiTests.streamText_try, runGeminiTests.countTokens_try,
    runGeminiTests.vision_try, runGeminiTests.systemInstruction_try,
    runGeminiTests.embedding_try; cbv zeta.

Ltac unfold_requests H :=
  unfold request_of, connect_request, generateText_request,
    streamText_request, countTokens_request, vision_request,
    systemInstruction_request, embedding_request in H.

Lemma getAIClient_constructor_throws (w : World) (k : string) (e : JsVal) :
  API_KEY w = Some k -> k <> "" -> GoogleGenAI w k = Throw e ->
  getAIClient w = ([EvNewClient k], Throw e).
Proof.
  intros Hk Hne Hc. unfold getAIClient. rewrite Hk.
  destruct (String.eqb_spec k "") as [-> | _]; [congruence |].
  cbn. unfold lift. rewrite Hc. reflexivity.
Qed.

Lemma probe_try_constructor_throws
    (p : Probe) (w : World) (k modelId : string) (e : JsVal) :
  API_KEY w = Some k -> k <> "" -> GoogleGenAI w k = Throw e ->
  probe_try p w modelId = ([EvNewClient k], Throw e).
Proof.
  intros Hk Hne Hc.
  destruct p; cbn [probe_try]; unfold_probes;
    rewrite (getAIClient_constructor_throws w k e Hk Hne Hc); reflexivity.
Qed.

Lemma probe_try_call_throws
    (p : Probe) (w : World) (k : string) (ai : Client) (modelId : string)
    (e : JsVal) :
  has_client w k ai -> call_throws p ai modelId e ->
  probe_try p w modelId
  = ([EvNewClient k; EvCall (method_of p) (request_of p modelId)], Throw e).
Proof.
  intros Hc Hcall. unfold call_throws in Hcall.
  destruct p; cbn [method_of] in Hcall |- *; unfold_requests Hcall;
    cbn [probe_try]; unfold_probes;
    rewrite (getAIClient_present _ _ _ Hc), bind_normal;
    unfold await_generateContent, await_generateContentStream,
      await_countTokens, await_embedContent;
    rewrite Hcall; reflexivity.
Qed.

(** What the handler of each probe makes of an error whose message is a
    string. *)
Lemma invoke_caught
    (p : Probe) (w : World) (arg : option string) (t : list Event)
    (e : JsVal) (msg : string) :
  probe_try p w (model_of arg) = (t, Throw e) ->
  property e "message" = JStr msg ->
  invoke p w arg
  = (t, Normal (failure_record (reported p (model_of arg) msg))).
Proof.
  intros Htry Hmsg.
  assert (He : nullish e = false)
    by (destruct e; cbn in Hmsg; try discriminate; reflexivity).
  rewrite invoke_try_catch, Htry.
  destruct p; cbn [probe_catch catch Exc_Js try_catch];
    unfold runGeminiTests.connect_catch, runGeminiTests.plain_catch,
      runGeminiTests.vision_catch;
    rewrite (get_property e "message" He), Hmsg; cbn; rewrite app_nil_r;
    try reflexivity.
  unfold js_or, failure_record. cbn.
  destruct (String.eqb msg ""); reflexivity.
Qed.

(** X3. When the stub rejects a probe's call with an error whose message is
    a string, the probe returns a failure record without data whose message
    is that string verbatim -- except that connect substitutes its fixed
    text for an empty message and vision prefixes its context and the model
    id -- after exactly one request. *)
Theorem rejected_call_message_is_passed_through
    (p : Probe) (w : World) (k : string) (ai : Client)
    (arg : option string) (e : JsVal) (msg : string) :
  has_client w k ai ->
  call_throws p ai (model_of arg) e ->
  property e "message" = JStr msg ->
  invoke p w arg
  = ([EvNewClient k; EvCall (method_of p) (request_of p (model_of arg))],
     Normal (failure_record (reported p (model_of arg) msg))).
Proof.
  intros Hc Hcall Hmsg.
  apply (invoke_caught p w arg _ e msg); [| exact Hmsg].
  apply (probe_try_call_throws p w k ai); assumption.
Qed.

Lemma rejected_call_message_is_passed_through_witness :
  invoke PVision (throwing (new_Error "429 quota exceeded"))
    (Some "gemini-2.5-pro")
  = ([EvNewClient "k"; EvCall GenerateContent (vision_request "gemini-2.5-pro")],
     Normal (failure_record
               "Error en visión (gemini-2.5-pro): 429 quota exceeded")).
Proof.
  apply (rejected_call_message_is_passed_through PVision
           (throwing (new_Error "429 quota exceeded")) "k"
           (stub_client (Throw (new_Error "429 quota exceeded"))
                        (Throw (new_Error "429 quota exceeded")))
           (Some "gemini-2.5-pro") (new_Error "429 quota exceeded")
           "429 quota exceeded").
  - repeat split. discriminate.
  - reflexivity.
  - reflexivity.
Defined.

(** X4. When the credential is present but the client constructor throws
    an error whose message is a string, every probe reports that message
    (worded as its handler words any error) in a failure record without
    data, and sends no request: the only event is the construction
    attempt with the credential of the environment. *)
Theorem constructor_failure_is_reported_without_request
    (p : Probe) (w : World) (k : string) (arg : option string)
    (e : JsVal) (msg : string) :
  API_KEY w = Some k -> k <> "" ->
  GoogleGenAI w k = Throw e ->
  property e "message" = JStr msg ->
  invoke p w arg
  = ([EvNewClient k],
     Normal (failure_record (reported p (model_of arg) msg))).
Proof.
  intros Hk Hne Hc Hmsg.
  apply (invoke_caught p w arg _ e msg); [| exact Hmsg].
  apply probe_try_constructor_throws; assumption.
Qed.

Lemma constructor_failure_is_reported_without_request_witness :
  invoke PConnect (failing_constructor (new_Error "")) None
  = ([EvNewClient "k"], Normal (failure_record "Error de conexión")).
Proof.
  apply (constructor_failure_is_reported_without_request PConnect
           (failing_constructor (new_Error "")) "k" None (new_Error "") "").
  - reflexivity.
  - discriminate.
  - reflexivity.
  - reflexivity.
Defined.

(* ===================================================================== *)
(** ** Further properties: the streaming loop *)
(* ===================================================================== *)

Lemma bind_ret_nil {A B} (a : A) (f : A -> Js B) :
  bind (([], Normal a) : Js A) f = f a.
Proof. cbn. destruct (f a); reflexivity. Qed.

Lemma stream_step_appends (chunk : JsVal) (f acc : string) (n : nat) :
  chunk_appends chunk f ->
  runGeminiTests.stream_step chunk (acc, n) = ([], Normal (acc ++ f, S n)).
Proof.
  intros [Hn Hf]. unfold runGeminiTests.stream_step.
  rewrite (get_text_of _ Hn), bind_ret_nil.
  unfold js_to_string. rewrite Hf. reflexivity.
Qed.

(** The loop over a run of well-formed chunks: their texts are appended in
    order, and the loop goes on with what follows. *)
Lemma for_await_appends
    (good : list JsVal) (fragments : list string) (more : list JsVal)
    (failure : option JsVal) :
  Forall2 chunk_appends good fragments ->
  forall (acc : string) (n : nat),
    for_await_chunks (good ++ more) failure runGeminiTests.stream_step (acc, n)
    = for_await_chunks more failure runGeminiTests.stream_step
        (acc ++ String.concat "" fragments, (n + List.length fragments)%nat).
Proof.
  induction 1 as [| c f good fragments Hc _ IH]; intros acc n.
  - cbn -[for_await_chunks]. now rewrite append_nil_r, Nat.add_0_r.
  - cbn [app for_await_chunks].
    rewrite (stream_step_appends _ _ _ _ Hc), bind_ret_nil, IH.
    rewrite concat_cons, append_assoc. cbn [List.length].
    now rewrite Nat.add_succ_r.
Qed.

Lemma streamText_try_on_stream
    (w : World) (k : string) (ai : Client) (modelId : string)
    (chunks : list JsVal) (failure : option JsVal)
    (c : Completion (string * nat)) :
  has_client w k ai ->
  models_generateContentStream ai (streamText_request modelId)
    = Normal (AsyncIterable chunks failure) ->
  for_await_chunks chunks failure runGeminiTests.stream_step ("", 0%nat)
    = ([], c) ->
  runGeminiTests.streamText_try w modelId
  = ([EvNewClient k;
      EvCall GenerateContentStream (streamText_request modelId)],
     match c with
     | Normal st =>
         Normal {| success := true;
                   message := JStr ("Streaming completado en "
                                    ++ string_of_nat (snd st)
                                    ++ " fragmentos.");
                   data := Some (JObj [
                     ("model", JStr modelId);
                     ("fullText", JStr (fst st));
                     ("chunkCount", JNum (Z.of_nat (snd st)))]) |}
     | Throw e => Throw e
     end).
Proof.
  intros Hc Hr Hloop. unfold runGeminiTests.streamText_try. cbv zeta.
  fold (streamText_request modelId).
  rewrite (getAIClient_present _ _ _ Hc), bind_normal.
  unfold await_generateContentStream. rewrite Hr.
  cbn -[for_await_chunks string_of_nat Z.of_nat]. rewrite Hloop.
  destruct c; reflexivity.
Qed.




(** X5. When the stream fails after delivering any number of well-formed
    chunks, with an error whose message is a string, the probe returns the
    failure record carrying that message and no data: the text received so
    far and the chunk count are discarded. *)
Theorem streamText_failure_discards_partial_text
    (w : World) (k : string) (ai : Client) (arg : option string)
    (chunks : list JsVal) (fragments : list string)
    (e : JsVal) (msg : string) :
  has_client w k ai ->
  models_generateContentStream ai (streamText_request (model_of arg))
    = Normal (AsyncIterable chunks (Some e)) ->
  Forall2 chunk_appends chunks fragments ->
  property e "message" = JStr msg ->
  invoke PStreamText w arg
  = ([EvNewClient k;
      EvCall GenerateContentStream (streamText_request (model_of arg))],
     Normal (failure_record msg)).
Proof.
  intros Hc Hr Hf Hmsg.
  pose proof (for_await_appends chunks fragments [] (Some e) Hf "" 0%nat)
    as Hl.
  rewrite app_nil_r in Hl. cbn [for_await_chunks] in Hl.
  apply (invoke_caught PStreamText w arg _ e msg); [| exact Hmsg].
  cbn [probe_try].
  rewrite (streamText_try_on_stream w k ai _ chunks (Some e) _ Hc Hr Hl).
  reflexivity.
Qed.

Lemma streamText_failure_discards_partial_text_witness :
  invoke PStreamText
    (streaming [text_chunk "1,"; text_chunk "2,"]
               (Some (new_Error "socket hang up"))) None
  = ([EvNewClient "k";
      EvCall GenerateContentStream (streamText_request "gemini-2.5-flash")],
     Normal (failure_record "socket hang up")).
Proof.
  apply (streamText_failure_discards_partial_text
           (streaming [text_chunk "1,"; text_chunk "2,"]
                      (Some (new_Error "socket hang up"))) "k"
           (stub_client (Normal JUndefined)
              (Normal (AsyncIterable [text_chunk "1,"; text_chunk "2,"]
                         (Some (new_Error "socket hang up")))))
           None [text_chunk "1,"; text_chunk "2,"] ["1,"; "2,"]
           (new_Error "socket hang up") "socket hang up").
  - repeat split. discriminate.
  - reflexivity.
  - repeat constructor.
  - reflexivity.
Defined.

(** X7. A chunk that is [undefined] or [null] aborts the streaming probe,
    wherever it arrives and whatever follows it: reading its [text] throws,
    the handler turns that into a failure record without data, and the text
    of the chunks before it is discarded. *)
Theorem streamText_null_chunk_fails
    (w : World) (k : string) (ai : Client) (arg : option string)
    (good : list JsVal) (fragments : list string)
    (chunk : JsVal) (rest : list JsVal) (failure : option JsVal) :
  has_client w k ai ->
  models_generateContentStream ai (streamText_request (model_of arg))
    = Normal (AsyncIterable (good ++ chunk :: rest) failure) ->
  Forall2 chunk_appends good fragments ->
  nullish chunk = true ->
  exists msg,
    invoke PStreamText w arg
    = ([EvNewClient k;
        EvCall GenerateContentStream (streamText_request (model_of arg))],
       Normal (failure_record msg)).
Proof.
  intros Hc Hr Hf Hn.
  pose proof (for_await_appends good fragments (chunk :: rest) failure Hf
                "" 0%nat) as Hl.
  assert (Hthrow : exists msg,
             for_await_chunks (good ++ chunk :: rest) failure
               runGeminiTests.stream_step ("", 0%nat)
             = ([], Throw (new_TypeError msg))).
  { rewrite Hl. destruct chunk; try discriminate Hn;
      eexists; reflexivity. }
  destruct Hthrow as (msg & Hthrow). exists msg.
  apply (invoke_caught PStreamText w arg _ (new_TypeError msg) msg);
    [| reflexivity].
  cbn [probe_try].
  rewrite (streamText_try_on_stream w k ai _ _ failure _ Hc Hr Hthrow).
  reflexivity.
Qed.

Lemma streamText_null_chunk_fails_witness :
  exists msg,
    invoke PStreamText
      (streaming [text_chunk "1,"; JNull; text_chunk "3"] None) None
    = ([EvNewClient "k";
        EvCall GenerateContentStream (streamText_request "gemini-2.5-flash")],
       Normal (failure_record msg)).
Proof.
  apply (streamText_null_chunk_fails
           (streaming [text_chunk "1,"; JNull; text_chunk "3"] None) "k"
           (stub_client (Normal JUndefined)
              (Normal (AsyncIterable
                         [text_chunk "1,"; JNull; text_chunk "3"] None)))
           None [text_chunk "1,"] ["1,"] JNull [text_chunk "3"] None).
  - repeat split. discriminate.
  - reflexivity.
  - repeat constructor.
  - reflexivity.
Defined.

(* ===================================================================== *)
(** ** Further properties: what each probe makes of a response *)
(* ===================================================================== *)

(** X1. The countTokens probe, with the credential present and a call that
    completes with a response: the result is a success whose data echoes
    the model id and the prompt and carries [response.totalTokens] as it
    is -- absent, negative or not a number included; the count is not
    checked. *)
Theorem countTokens_reports_count_unchecked
    (w : World) (k : string) (ai : Client) (arg : option string)
    (response : JsVal) :
  has_client w k ai ->
  models_countTokens ai (countTokens_request (model_of arg))
    = Normal response ->
  nullish response = false ->
  invoke PCountTokens w arg
  = ([EvNewClient k; EvCall CountTokens (countTokens_request (model_of arg))],
     Normal {| success := true;
               message := JStr "Conteo de tokens exitoso.";
               data := Some (JObj [
                 ("model", JStr (model_of arg));
                 ("prompt", JStr runGeminiTests.COUNT_PROMPT);
                 ("totalTokens", property response "totalTokens")]) |}).
Proof.
  intros Hc Hr Hn. cbn [invoke].
  unfold runGeminiTests.countTokens, runGeminiTests.countTokens_try.
  fold (model_of arg). fold (countTokens_request (model_of arg)).
  rewrite (getAIClient_present _ _ _ Hc), bind_normal.
  unfold await_countTokens. rewrite Hr.
  cbn -[get]. rewrite (get_property _ "totalTokens" Hn). reflexivity.
Qed.

Lemma countTokens_reports_count_unchecked_witness :
  invoke PCountTokens (returning (JObj [("cachedTokens", JNum 2)])) None
  = ([EvNewClient "k";
      EvCall CountTokens (countTokens_request "gemini-2.5-flash")],
     Normal {| success := true;
               message := JStr "Conteo de tokens exitoso.";
               data := Some (JObj [
                 ("model", JStr "gemini-2.5-flash");
                 ("prompt", JStr runGeminiTests.COUNT_PROMPT);
                 ("totalTokens", JUndefined)]) |}).
Proof.
  apply (countTokens_reports_count_unchecked
           (returning (JObj [("cachedTokens", JNum 2)])) "k"
           (stub_client (Normal (JObj [("cachedTokens", JNum 2)]))
                        (Normal (AsyncIterable [] None)))
           None (JObj [("cachedTokens", JNum 2)])).
  - repeat split. discriminate.
  - reflexivity.
  - reflexivity.
Defined.

(** X2. The vision probe, with the credential present and a call that
    completes with a response: it sends one generateContent request whose
    contents are two parts, the inline PNG sample image and the text
    instruction, and returns a success whose data carries the model id and
    [response.text] as it is, empty or absent included. *)
Theorem vision_sends_image_and_reports_output
    (w : World) (k : string) (ai : Client) (arg : option string)
    (response : JsVal) :
  has_client w k ai ->
  models_generateContent ai (vision_request (model_of arg))
    = Normal response ->
  nullish response = false ->
  invoke PVision w arg
  = ([EvNewClient k;
      EvCall GenerateContent
        (JObj [("model", JStr (model_of arg));
               ("contents", JObj [("parts", JArr [
                  JObj [("inlineData",
                         JObj [("mimeType", JStr "image/png");
                               ("data", JStr SAMPLE_IMAGE_BASE64)])];
                  JObj [("text", JStr runGeminiTests.VISION_PROMPT)]])])])],
     Normal {| success := true;
               message := JStr "Análisis de visión completado.";
               data := Some (JObj [("model", JStr (model_of arg));
                                   ("output", text_of response)]) |}).
Proof.
  intros Hc Hr Hn. cbn [invoke].
  unfold runGeminiTests.vision, runGeminiTests.vision_try.
  fold (model_of arg). fold (vision_request (model_of arg)).
  rewrite (getAIClient_present _ _ _ Hc), bind_normal.
  unfold await_generateContent. rewrite Hr.
  cbn -[get]. rewrite (get_text_of _ Hn). reflexivity.
Qed.

Lemma vision_sends_image_and_reports_output_witness :
  invoke PVision (returning (JObj [("text", JStr "Un pixel rojo")]))
    (Some "gemini-2.5-pro")
  = ([EvNewClient "k";
      EvCall GenerateContent
        (JObj [("model", JStr "gemini-2.5-pro");
               ("contents", JObj [("parts", JArr [
                  JObj [("inlineData",
                         JObj [("mimeType", JStr "image/png");
                               ("data", JStr SAMPLE_IMAGE_BASE64)])];
                  JObj [("text", JStr runGeminiTests.VISION_PROMPT)]])])])],
     Normal {| success := true;
               message := JStr "Análisis de visión completado.";
               data := Some (JObj [("model", JStr "gemini-2.5-pro");
                                   ("output", JStr "Un pixel rojo")]) |}).
Proof.
  apply (vision_sends_image_and_reports_output
           (returning (JObj [("text", JStr "Un pixel rojo")])) "k"
           (stub_client (Normal (JObj [("text", JStr "Un pixel rojo")]))
                        (Normal (AsyncIterable [] None)))
           (Some "gemini-2.5-pro") (JObj [("text", JStr "Un pixel rojo")])).
  - repeat split. discriminate.
  - reflexivity.
  - reflexivity.
Defined.

Lemma truthy_property (v : JsVal) (k : string) :
  truthy (property v k) = true -> k <> "length" -> truthy v = true.
Proof.
  intros Hp Hk. destruct (truthy v) eqn:E; [reflexivity |].
  now rewrite (falsy_property v k E Hk) in Hp.
Qed.

(** X8. The connect probe, with the credential present and a call that
    completes: the outcome is decided by the truthiness of [response.text]
    alone.  A truthy text, string or not, is a success with that text as
    [data.reply]; anything else -- an empty or absent text, but also a
    response that is [null], [undefined] or not an object -- is the failure
    record with the empty-response message, never a TypeError. *)
Theorem connect_decided_by_text_truthiness
    (w : World) (k : string) (ai : Client) (arg : option string)
    (response : JsVal) :
  has_client w k ai ->
  models_generateContent ai (connect_request (model_of arg))
    = Normal response ->
  invoke PConnect w arg
  = ([EvNewClient k; EvCall GenerateContent (connect_request (model_of arg))],
     Normal (if truthy (text_of response)
             then {| success := true;
                     message := JStr ("Conexión exitosa con "
                                      ++ model_of arg ++ ".");
                     data := Some (JObj [("reply", text_of response)]) |}
             else failure_record "Respuesta vacía del servidor.")).
Proof.
  intros Hc Hr. cbn [invoke].
  unfold runGeminiTests.connect, runGeminiTests.connect_try.
  fold (model_of arg). fold (connect_request (model_of arg)).
  rewrite (getAIClient_present _ _ _ Hc), bind_normal.
  unfold await_generateContent. rewrite Hr.
  destruct (connect_cond response) as (c & Hcond & Htr).
  cbn -[js_and_then get]. rewrite Hcond.
  destruct (truthy (text_of response)) eqn:Et.
  - assert (Hresp : truthy response = true)
      by (apply (truthy_property _ "text" Et); discriminate).
    rewrite Hresp in Htr. cbn in Htr. cbn -[get].
    rewrite Htr, (get_text_of _ (truthy_not_nullish _ Hresp)). reflexivity.
  - rewrite andb_false_r in Htr. cbn. rewrite Htr. reflexivity.
Qed.

Lemma connect_decided_by_text_truthiness_witness :
  invoke PConnect (returning JNull) None
  = ([EvNewClient "k"; EvCall GenerateContent (connect_request "gemini-2.5-flash")],
     Normal (failure_record "Respuesta vacía del servidor.")).
Proof.
  apply (connect_decided_by_text_truthiness (returning JNull) "k"
           (stub_client (Normal JNull) (Normal (AsyncIterable [] None)))
           None JNull).
  - repeat split. discriminate.
  - reflexivity.
Defined.

(** X9. The embedding probe, with the credential present and a call that
    completes: the outcome is decided by the truthiness of
    [response.embedding.values] alone.  A truthy value, array or not, is a
    success whose [data.vectorLength] is that value's [length] property
    (absent when it has none); anything else -- a vector that is absent,
    [null], [0] or empty text, a missing embedding, a response that is
    [null] or [undefined] -- logs one console warning with the raw response
    and is the failure record with the malformed-response message, never a
    TypeError. *)
Theorem embedding_decided_by_values_truthiness
    (w : World) (k : string) (ai : Client) (arg : option string)
    (response : JsVal) :
  has_client w k ai ->
  models_embedContent ai embedding_request = Normal response ->
  invoke PEmbedding w arg
  = if truthy (embedding_values response)
    then ([EvNewClient k; EvCall EmbedContent embedding_request],
          Normal {| success := true;
                    message := JStr "Embedding generado correctamente.";
                    data := Some (JObj [
                      ("model", JStr runGeminiTests.EMBEDDING_MODEL);
                      ("vectorLength",
                       property (embedding_values response) "length")]) |})
    else ([EvNewClient k; EvCall EmbedContent embedding_request;
           EvWarn [JStr "Embedding response missing values:"; response]],
          Normal (failure_record runGeminiTests.EMBEDDING_MISSING)).
Proof.
  intros Hc Hr. cbn [invoke].
  unfold runGeminiTests.embedding, runGeminiTests.embedding_try.
  fold embedding_request.
  rewrite (getAIClient_present _ _ _ Hc), bind_normal.
  unfold await_embedContent. rewrite Hr.
  destruct (embedding_guard response) as (c1 & c2 & H1 & H2 & Htr).
  cbn -[js_and_then get] in H2.
  cbn -[js_and_then get]. rewrite H1.
  cbn -[js_and_then get]. rewrite H2.
  destruct (truthy (embedding_values response)) eqn:Ev.
  - cbn -[get]. rewrite Htr.
    unfold embedding_values in Ev |- *.
    pose proof (truthy_not_nullish _ Ev) as Hnv.
    pose proof (property_not_nullish _ _ Hnv) as Hne.
    pose proof (property_not_nullish _ _ Hne) as Hnr.
    rewrite (get_property response "embedding" Hnr).
    cbn -[get].
    rewrite (get_property _ "values" Hne).
    cbn -[get].
    rewrite (get_property _ "length" Hnv). reflexivity.
  - cbn. rewrite Htr. reflexivity.
Qed.

Lemma embedding_decided_by_values_truthiness_witness :
  invoke PEmbedding
    (returning (JObj [("embedding", JObj [("values", JObj [])])])) None
  = ([EvNewClient "k"; EvCall EmbedContent embedding_request],
     Normal {| success := true;
               message := JStr "Embedding generado correctamente.";
               data := Some (JObj [
                 ("model", JStr runGeminiTests.EMBEDDING_MODEL);
                 ("vectorLength", JUndefined)]) |})
  /\ invoke PEmbedding (returning JNull) None
     = ([EvNewClient "k"; EvCall EmbedContent embedding_request;
         EvWarn [JStr "Embedding response missing values:"; JNull]],
        Normal (failure_record runGeminiTests.EMBEDDING_MISSING)).
Proof.
  split.
  - apply (embedding_decided_by_values_truthiness
             (returning (JObj [("embedding", JObj [("values", JObj [])])]))
             "k"
             (stub_client
                (Normal (JObj [("embedding", JObj [("values", JObj [])])]))
                (Normal (AsyncIterable [] None)))
             None (JObj [("embedding", JObj [("values", JObj [])])])).
    + repeat split. discriminate.
    + reflexivity.
  - apply (embedding_decided_by_values_truthiness (returning JNull) "k"
             (stub_client (Normal JNull) (Normal (AsyncIterable [] None)))
             None JNull).
    + repeat split. discriminate.
    + reflexivity.
Defined.

Lemma systemInstruction_try_on_response
    (w : World) (k : string) (ai : Client) (modelId : string)
    (response : JsVal) :
  has_client w k ai ->
  models_generateContent ai (systemInstruction_request modelId)
    = Normal response ->
  nullish response = false ->
  runGeminiTests.systemInstruction_try w modelId
  = bind (([EvNewClient k;
            EvCall GenerateContent (systemInstruction_request modelId)],
           Normal tt) : Js unit)
      (fun _ =>
         isCorrect <- call_toLowerCase_includes
                        (js_or (text_of response) (JStr "")) "miau" ;;
         ret {| success := isCorrect;
                message := JStr (if isCorrect
                                 then runGeminiTests.INSTRUCTION_OK
                                 else runGeminiTests.INSTRUCTION_KO);
                data := Some (JObj [
                  ("model", JStr modelId);
                  ("instruction", JStr runGeminiTests.SYSTEM_INSTRUCTION);
                  ("prompt", JStr runGeminiTests.SYSTEM_PROMPT);
                  ("output", js_or (text_of response) (JStr ""))]) |}).
Proof.
  intros Hc Hr Hn. unfold runGeminiTests.systemInstruction_try. cbv zeta.
  fold (systemInstruction_request modelId).
  rewrite (getAIClient_present _ _ _ Hc), bind_normal.
  unfold await_generateContent. rewrite Hr.
  cbn -[get js_or call_toLowerCase_includes].
  rewrite (get_text_of _ Hn).
  cbn -[js_or call_toLowerCase_includes].
  destruct (call_toLowerCase_includes _ "miau") as [t [b | e]]; reflexivity.
Qed.

(** X10. The systemInstruction probe, with the credential present and a
    call that completes with a response whose text is absent or otherwise
    falsy: the text is taken to be the empty string, so the result is the
    content-validation failure, with the not-followed message and the full
    data payload whose output is the empty string. *)
Theorem systemInstruction_absent_text_is_validation_failure
    (w : World) (k : string) (ai : Client) (arg : option string)
    (response : JsVal) :
  has_client w k ai ->
  models_generateContent ai (systemInstruction_request (model_of arg))
    = Normal response ->
  nullish response = false ->
  truthy (text_of response) = false ->
  invoke PSystemInstruction w arg
  = ([EvNewClient k;
      EvCall GenerateContent (systemInstruction_request (model_of arg))],
     Normal {| success := false;
               message := JStr runGeminiTests.INSTRUCTION_KO;
               data := Some (JObj [
                 ("model", JStr (model_of arg));
                 ("instruction", JStr runGeminiTests.SYSTEM_INSTRUCTION);
                 ("prompt", JStr runGeminiTests.SYSTEM_PROMPT);
                 ("output", JStr "")]) |}).
Proof.
  intros Hc Hr Hn Ht. cbn [invoke].
  unfold runGeminiTests.systemInstruction. fold (model_of arg).
  rewrite (systemInstruction_try_on_response w k ai _ response Hc Hr Hn).
  unfold js_or. rewrite Ht. reflexivity.
Qed.

Lemma systemInstruction_absent_text_is_validation_failure_witness :
  invoke PSystemInstruction (returning (JObj [("candidates", JArr [])])) None
  = ([EvNewClient "k";
      EvCall GenerateContent (systemInstruction_request "gemini-2.5-flash")],
     Normal {| success := false;
               message := JStr runGeminiTests.INSTRUCTION_KO;
               data := Some (JObj [
                 ("model", JStr "gemini-2.5-flash");
                 ("instruction", JStr runGeminiTests.SYSTEM_INSTRUCTION);
                 ("prompt", JStr runGeminiTests.SYSTEM_PROMPT);
                 ("output", JStr "")]) |}).
Proof.
  apply (systemInstruction_absent_text_is_validation_failure
           (returning (JObj [("candidates", JArr [])])) "k"
           (stub_client (Normal (JObj [("candidates", JArr [])]))
                        (Normal (AsyncIterable [] None)))
           None (JObj [("candidates", JArr [])])).
  - repeat split. discriminate.
  - reflexivity.
  - reflexivity.
  - reflexivity.
Defined.

(** X11. The systemInstruction probe, with the credential present and a
    call that completes with a response whose text is truthy but not a
    string: [toLowerCase] is not there to call, the TypeError is caught,
    and the result is a failure record without data -- a catch-boundary
    failure, not the content-validation failure. *)
Theorem systemInstruction_non_string_text_is_caught
    (w : World) (k : string) (ai : Client) (arg : option string)
    (response : JsVal) :
  has_client w k ai ->
  models_generateContent ai (systemInstruction_request (model_of arg))
    = Normal response ->
  truthy (text_of response) = true ->
  (forall s, text_of response <> JStr s) ->
  exists msg,
    invoke PSystemInstruction w arg
    = ([EvNewClient k;
        EvCall GenerateContent (systemInstruction_request (model_of arg))],
       Normal (failure_record msg)).
Proof.
  intros Hc Hr Ht Hs.
  assert (Hn : nullish response = false).
  { apply truthy_not_nullish, (truthy_property _ "text" Ht). discriminate. }
  assert (Hthrow : exists msg,
             call_toLowerCase_includes (text_of response) "miau"
             = ([], Throw (new_TypeError msg))).
  { destruct (text_of response) as [| | b | z | s | l | props |] eqn:E;
      try discriminate Ht; try (eexists; reflexivity).
    - exfalso. exact (Hs s eq_refl).
    - cbn. destruct (lookup "toLowerCase" props); eexists; reflexivity. }
  destruct Hthrow as (msg & Hthrow). exists msg.
  apply (invoke_caught PSystemInstruction w arg _ (new_TypeError msg) msg);
    [| reflexivity].
  cbn [probe_try].
  rewrite (systemInstruction_try_on_response w k ai _ response Hc Hr Hn).
  unfold js_or. rewrite Ht, Hthrow. reflexivity.
Qed.

Lemma systemInstruction_non_string_text_is_caught_witness :
  exists msg,
    invoke PSystemInstruction
      (returning (JObj [("text", JArr [JStr "Miau"])])) None
    = ([EvNewClient "k";
        EvCall GenerateContent (systemInstruction_request "gemini-2.5-flash")],
       Normal (failure_record msg)).
Proof.
  apply (systemInstruction_non_string_text_is_caught
           (returning (JObj [("text", JArr [JStr "Miau"])])) "k"
           (stub_client (Normal (JObj [("text", JArr [JStr "Miau"])]))
                        (Normal (AsyncIterable [] None)))
           None (JObj [("text", JArr [JStr "Miau"])])).
  - repeat split. discriminate.
  - reflexivity.
  - reflexivity.
  - intros s H. discriminate H.
Defined.

(** X12. For generateText, countTokens, vision and systemInstruction, a
    call that completes with [null] or [undefined] in place of a response
    is reported as a failure without data, after the one request: the read
    of the response's field throws inside the [try] block and the handler
    words the TypeError. *)
Theorem null_response_is_reported_as_failure
    (p : Probe) (w : World) (k : string) (ai : Client)
    (arg : option string) (response : JsVal) :
  In p [PGenerateText; PCountTokens; PVision; PSystemInstruction] ->
  has_client w k ai ->
  call_returns p ai (model_of arg) response ->
  nullish response = true ->
  exists msg,
    invoke p w arg
    = ([EvNewClient k; EvCall (method_of p) (request_of p (model_of arg))],
       Normal (failure_record msg)).
Proof.
  intros Hp Hc Hr Hn.
  assert (Htry : exists msg,
             probe_try p w (model_of arg)
             = ([EvNewClient k;
                 EvCall (method_of p) (request_of p (model_of arg))],
                Throw (new_TypeError msg))).
  { unfold call_returns in Hr.
    cbn [In] in Hp.
    destruct Hp as [<- | [<- | [<- | [<- | []]]]];
      cbn [method_of] in Hr |- *; unfold_requests Hr;
      cbn [probe_try]; unfold_probes;
      rewrite (getAIClient_present _ _ _ Hc), bind_normal;
      unfold await_generateContent, await_countTokens;
      rewrite Hr;
      destruct response; try discriminate Hn; eexists; reflexivity. }
  destruct Htry as (msg & Htry).
  exists (reported p (model_of arg) msg).
  apply (invoke_caught p w arg _ (new_TypeError msg) msg);
    [exact Htry | reflexivity].
Qed.

Lemma null_response_is_reported_as_failure_witness :
  exists msg,
    invoke PCountTokens (returning JUndefined) None
    = ([EvNewClient "k";
        EvCall CountTokens (countTokens_request "gemini-2.5-flash")],
       Normal (failure_record msg)).
Proof.
  apply (null_response_is_reported_as_failure PCountTokens
           (returning JUndefined) "k"
           (stub_client (Normal JUndefined) (Normal (AsyncIterable [] None)))
           None JUndefined).
  - right. left. reflexivity.
  - repeat split. discriminate.
  - reflexivity.
  - reflexivity.
Defined.

(* ===================================================================== *)
(** ** Further properties: invariants of every run *)
(* ===================================================================== *)

Lemma probe_try_record (p : Probe) (w : World) (modelId : string) :
  holds any
    (fun r => (exists s, message r = JStr s) /\ exists d, data r = Some d)
    any (probe_try p w modelId).
Proof.
  destruct p; cbn [probe_try]; unfold_probes;
    repeat js_skip;
    repeat js_rule; try (intros; exact I);
    (split; eexists; reflexivity).
Qed.

(** X13. In every world and for every argument, a record returned with
    [success = true] was built by the [try] block: its message is a string
    and its data payload is present. *)
Theorem success_has_string_message_and_data
    (p : Probe) (w : World) (arg : option string)
    (t : list Event) (r : TestResult) :
  invoke p w arg = (t, Normal r) ->
  success r = true ->
  (exists s, message r = JStr s) /\ (exists d, data r = Some d).
Proof.
  rewrite invoke_try_catch. intros Hrun Hs.
  pose proof (probe_try_record p w (model_of arg)) as [_ Htry].
  destruct (probe_try p w (model_of arg)) as [t' [a | e]]; cbn in Hrun, Htry.
  - injection Hrun as _ <-. exact Htry.
  - pose proof (probe_catch_result p (model_of arg) e) as [_ Hcatch].
    destruct (probe_catch p (model_of arg) e) as [t'' c].
    injection Hrun as _ ->. destruct Hcatch as [Hf _]. congruence.
Qed.

Lemma success_has_string_message_and_data_witness :
  (exists s,
     message {| success := true;
                message := JStr "Conteo de tokens exitoso.";
                data := Some (JObj [
                  ("model", JStr "gemini-2.5-flash");
                  ("prompt", JStr runGeminiTests.COUNT_PROMPT);
                  ("totalTokens", JNum 6)]) |} = JStr s)
  /\ (exists d,
        data {| success := true;
                message := JStr "Conteo de tokens exitoso.";
                data := Some (JObj [
                  ("model", JStr "gemini-2.5-flash");
                  ("prompt", JStr runGeminiTests.COUNT_PROMPT);
                  ("totalTokens", JNum 6)]) |} = Some d).
Proof.
  apply (success_has_string_message_and_data PCountTokens
           (returning (JObj [("totalTokens", JNum 6)])) None
           [EvNewClient "k";
            EvCall CountTokens (countTokens_request "gemini-2.5-flash")]).
  - reflexivity.
  - reflexivity.
Defined.

Lemma truthy_js_or (a b : JsVal) : truthy b = true -> truthy (js_or a b) = true.
Proof. intros Hb. unfold js_or. destruct (truthy a) eqn:E; assumption. Qed.

(** X14. In every world and for every argument, a failure record returned
    by connect has no data and a truthy message: whatever was thrown, the
    message is never [undefined], [null] or the empty string, because the
    handler substitutes its fixed text for a missing or empty one. *)
Theorem connect_failure_message_is_never_empty
    (w : World) (arg : option string) (t : list Event) (r : TestResult) :
  invoke PConnect w arg = (t, Normal r) ->
  success r = false ->
  truthy (message r) = true /\ data r = None.
Proof.
  rewrite invoke_try_catch. intros Hrun Hf.
  pose proof (probe_try_result PConnect w (model_of arg)) as [_ Htry].
  destruct (probe_try PConnect w (model_of arg)) as [t' [a | e]];
    cbn in Hrun, Htry.
  - injection Hrun as _ <-.
    destruct Htry as [Hs | [Hp _]]; [congruence | discriminate Hp].
  - unfold runGeminiTests.connect_catch in Hrun.
    destruct (get e "message") as [tg [msg | e']]; cbn in Hrun.
    + injection Hrun as _ <-. cbn. split; [| reflexivity].
      apply truthy_js_or. reflexivity.
    + discriminate Hrun.
Qed.

Lemma connect_failure_message_is_never_empty_witness :
  truthy (message (failure_record "Error de conexión")) = true
  /\ data (failure_record "Error de conexión") = None.
Proof.
  apply (connect_failure_message_is_never_empty
           (throwing (JObj [("status", JNum 503)])) None
           [EvNewClient "k";
            EvCall GenerateContent (connect_request "gemini-2.5-flash")]).
  - reflexivity.
  - reflexivity.
Defined.

Lemma silent_nil (t : list Event) : Forall silent t -> t = [].
Proof. destruct 1 as [| ev t Hev _]; [reflexivity | contradiction]. Qed.

Lemma probe_catch_silent (p : Probe) (modelId : string) (e : JsVal) :
  fst (probe_catch p modelId e) = [].
Proof.
  apply silent_nil. refine (proj1 (_ : holds silent any any _)).
  destruct p; cbn [probe_catch];
    unfold runGeminiTests.connect_catch, runGeminiTests.plain_catch,
      runGeminiTests.vision_catch;
    repeat js_rule; try (intros; exact I).
Qed.

Lemma fst_invoke (p : Probe) (w : World) (arg : option string) :
  fst (invoke p w arg) = fst (probe_try p w (model_of arg)).
Proof.
  rewrite invoke_try_catch, fst_catch.
  destruct (snd (probe_try p w (model_of arg)));
    [| rewrite probe_catch_silent]; apply app_nil_r.
Qed.

(** After its request, a [try] block other than that of embedding emits
    nothing. *)
Ltac silent_tail :=
  lazymatch goal with
  | |- match ?c with Normal _ => _ | Throw _ => _ end = [] =>
      destruct c as [response | e]; [| reflexivity];
      apply silent_nil;
      refine (proj1 (_ : holds silent any any _));
      try (eapply holds_bind;
           [apply holds_for_await;
            [intros; exact I | intros; exact I
            | intros; apply holds_stream_step; intros; exact I]
           | intros ? ?]);
      repeat js_rule; try (intros; exact I)
  end.

Lemma await_generateContent_run (ai : Client) (request : JsVal) :
  await_generateContent ai request
  = ([EvCall GenerateContent request], models_generateContent ai request).
Proof. reflexivity. Qed.

Lemma await_generateContentStream_run (ai : Client) (request : JsVal) :
  await_generateContentStream ai request
  = ([EvCall GenerateContentStream request],
     models_generateContentStream ai request).
Proof. reflexivity. Qed.

Lemma await_countTokens_run (ai : Client) (request : JsVal) :
  await_countTokens ai request
  = ([EvCall CountTokens request], models_countTokens ai request).
Proof. reflexivity. Qed.

Lemma await_embedContent_run (ai : Client) (request : JsVal) :
  await_embedContent ai request
  = ([EvCall EmbedContent request], models_embedContent ai request).
Proof. reflexivity. Qed.

Lemma embedding_try_trace
    (w : World) (k : string) (ai : Client) (response : JsVal) :
  has_client w k ai ->
  models_embedContent ai embedding_request = Normal response ->
  fst (runGeminiTests.embedding_try w)
  = ([EvNewClient k; EvCall EmbedContent embedding_request]
     ++ (if truthy (embedding_values response) then []
         else [EvWarn [JStr "Embedding response missing values:";
                       response]]))%list.
Proof.
  intros Hc Hr. unfold runGeminiTests.embedding_try. cbv zeta.
  fold embedding_request.
  destruct (embedding_guard response) as (c1 & c2 & H1 & H2 & Htr).
  rewrite fst_bind, (getAIClient_present _ _ _ Hc). cbn [fst snd].
  rewrite fst_bind, await_embedContent_run, Hr. cbn [fst snd].
  rewrite fst_bind, H1. cbn [fst snd app].
  rewrite fst_bind, H2. cbn [fst snd app].
  rewrite <- Htr. do 2 f_equal.
  destruct (truthy c2) eqn:E2.
  - apply silent_nil. refine (proj1 (_ : holds silent any any _)).
    repeat js_rule; try (intros; exact I).
  - reflexivity.
Qed.

Lemma probe_try_trace_shape (p : Probe) (w : World) (modelId : string) :
  trace_shape p w modelId (fst (probe_try p w modelId)).
Proof.
  destruct (API_KEY w) as [k |] eqn:Hk;
    [| left; rewrite probe_try_absent; [reflexivity | left; exact Hk]].
  destruct (String.eqb_spec k "") as [-> | Hne];
    [left; rewrite probe_try_absent; [reflexivity | right; exact Hk] |].
  right. exists k. split; [exact Hk | split; [exact Hne |]].
  destruct (GoogleGenAI w k) as [ai | e] eqn:Hctor.
  - assert (Hc : has_client w k ai) by (repeat split; assumption).
    right.
    destruct p.
    1-6: left; cbn [probe_try method_of request_of]; unfold_probes;
      unfold connect_request, generateText_request, streamText_request,
        countTokens_request, vision_request, systemInstruction_request;
      rewrite fst_bind, (getAIClient_present _ _ _ Hc);
      cbn [fst snd app]; rewrite fst_bind;
      rewrite ?await_generateContent_run, ?await_generateContentStream_run,
        ?await_countTokens_run;
      cbn [fst snd app]; do 2 f_equal; silent_tail.
    cbn [probe_try method_of request_of].
    destruct (models_embedContent ai embedding_request)
      as [response | e] eqn:Hr.
    + rewrite (embedding_try_trace w k ai response Hc Hr).
      destruct (truthy (embedding_values response));
        [left; reflexivity | right; split; [reflexivity |]].
      exists response. reflexivity.
    + left.
      change (runGeminiTests.embedding_try w)
        with (probe_try PEmbedding w modelId).
      rewrite (probe_try_call_throws PEmbedding w k ai modelId e Hc Hr).
      reflexivity.
  - left. now rewrite (probe_try_constructor_throws p w k modelId e Hk Hne Hctor).
Qed.

(** X15. In every world and for every argument, the events of a probe are
    one of: nothing at all (no credential); the construction of one client
    with the credential of the environment (the constructor threw); that
    and exactly one request, to the probe's own endpoint with the probe's
    own request; or, for embedding alone, those two followed by one console
    warning.  No probe constructs a client without a credential, sends a
    request before constructing the client, sends a second request, or
    retries. *)
Theorem probe_events_have_one_shape
    (p : Probe) (w : World) (arg : option string) :
  trace_shape p w (model_of arg) (fst (invoke p w arg)).
Proof. rewrite fst_invoke. apply probe_try_trace_shape. Qed.

Lemma probe_catch_not_catchable (p : Probe) (modelId : string) (e : JsVal) :
  ~ catchable p e ->
  exists e', probe_catch p modelId e = ([], Throw e').
Proof.
  intros Hnot. destruct (nullish e) eqn:Hn.
  - destruct p, e; try discriminate Hn; eexists; reflexivity.
  - assert (Hv : p = PVision /\ to_string (property e "message") = None).
    { destruct p;
        try (exfalso; apply Hnot; split; [exact Hn | discriminate]).
      split; [reflexivity |].
      destruct (to_string (property e "message")) eqn:E; [| reflexivity].
      exfalso. apply Hnot. split; [exact Hn | intros _; congruence]. }
    destruct Hv as [-> Hs]. cbn [probe_catch].
    unfold runGeminiTests.vision_catch.
    rewrite (get_property e "message" Hn), bind_ret_nil.
    unfold js_to_string. rewrite Hs. eexists; reflexivity.
Qed.

(** X16. A probe raises to its caller exactly when its [try] block threw a
    value its handler cannot word: [undefined] or [null], whose [message]
    cannot be read, or, for vision alone, a value whose message has no
    string conversion.  In every other run the probe returns a record. *)
Theorem probe_raises_exactly_when_handler_throws
    (p : Probe) (w : World) (arg : option string) :
  (exists t e', invoke p w arg = (t, Throw e'))
  <-> (exists t e,
         probe_try p w (model_of arg) = (t, Throw e) /\ ~ catchable p e).
Proof.
  rewrite invoke_try_catch.
  destruct (probe_try p w (model_of arg)) as [t [r | e]]; cbn.
  - split; [intros (t' & e' & H) | intros (t' & e & H & _)]; discriminate H.
  - split.
    + intros (t' & e' & H). exists t, e. split; [reflexivity |].
      intros Hc.
      destruct (probe_catch_on_catchable p (model_of arg) e Hc)
        as (r & Hr & _).
      rewrite Hr in H. discriminate H.
    + intros (t' & e0 & H & Hnot). injection H as _ <-.
      destruct (probe_catch_not_catchable p (model_of arg) e Hnot)
        as (e' & He').
      rewrite He'. eexists; eexists; reflexivity.
Qed.
